(** * installtool: classification, checksum verification and remote install

    A shallow embedding of the deployment core of [installtool.py]:
    [read_md5_file], [calc_md5], [verify_md5s], [pack_list],
    [remote_privileged_command], [remote_command], [scp_files],
    [yum_install_remote] and [install_remote], and of its dialogue with
    the operator: [yesno], [menu], [multi_menu], [no_running_sw] and
    [verbose_rpm_ask].

    Conventions of the embedding.
    - A Python [str] is a [string]; a character is a code point below 256.
      The content of a file is given as such a string, already decoded
      when the file is read as text.
    - A [pathlib.Path] is a record of its anchor and its components.  The
      file system is a read-only function from absolute component lists to
      a file state; [resolve] joins a relative path to the working
      directory (symbolic links and [..] are not interpreted).
    - Effects are recorded as a list of events.  A computation receives the
      history of events so far and returns the events it adds, together
      with a value or a raised exception.  Whatever the outside world
      answers (exit statuses, upload errors, operator answers) is read from
      an environment whose answers may depend on the whole history.
    - Every [print] statement of the source is one constructor of
      [message], carrying the values interpolated in its text. *)

From Stdlib Require Import ZArith Ascii.
From stdpp Require Import gmap strings list fin_maps.

Local Open Scope Z_scope.

(** ** Python strings *)

Module Py.

(** [str.isspace] on one character, for code points below 256. *)
Definition isspace (c : ascii) : bool :=
  let n := nat_of_ascii c in
  ((9 <=? n) && (n <=? 13) || (28 <=? n) && (n <=? 32)
   || (n =? 133) || (n =? 160))%nat.

Definition char_eqb (a b : ascii) : bool := Ascii.eqb a b.

Fixpoint len (s : string) : Z :=
  match s with
  | EmptyString => 0
  | String _ r => 1 + len r
  end.

Fixpoint nth_char (s : string) (n : nat) : option ascii :=
  match s, n with
  | EmptyString, _ => None
  | String c _, O => Some c
  | String _ r, S k => nth_char r k
  end.

(** [s[i]], with Python's negative indices; [None] is [IndexError]. *)
Definition index (s : string) (i : Z) : option ascii :=
  let j := if i <? 0 then i + len s else i in
  if j <? 0 then None else nth_char s (Z.to_nat j).

(** [s.replace(c, '')] for a one-character [c]. *)
Fixpoint remove_char (c : ascii) (s : string) : string :=
  match s with
  | EmptyString => EmptyString
  | String a r =>
      if char_eqb a c then remove_char c r else String a (remove_char c r)
  end.

Fixpoint lstrip (s : string) : string :=
  match s with
  | EmptyString => EmptyString
  | String a r => if isspace a then lstrip r else s
  end.

Fixpoint rstrip (s : string) : string :=
  match s with
  | EmptyString => EmptyString
  | String a r =>
      match rstrip r with
      | EmptyString => if isspace a then EmptyString else String a EmptyString
      | r' => String a r'
      end
  end.

(** [s.strip()] *)
Definition strip (s : string) : string := rstrip (lstrip s).

(** [s.split(c)] for a one-character separator [c]: every occurrence of
    [c] ends a field, so the result is never empty and two adjacent
    separators enclose an empty field. *)
Fixpoint split (c : ascii) (s : string) : list string :=
  match s with
  | EmptyString => [EmptyString]
  | String a r =>
      if char_eqb a c then EmptyString :: split c r
      else match split c r with
           | [] => [String a EmptyString]
           | f :: fs => String a f :: fs
           end
  end.

(** [s.split()]: fields are the maximal runs of non-space characters. *)
Fixpoint split_whitespace_aux (cur : option string) (s : string) : list string :=
  match s with
  | EmptyString => match cur with Some f => [f] | None => [] end
  | String a r =>
      if isspace a
      then match cur with
           | Some f => f :: split_whitespace_aux None r
           | None => split_whitespace_aux None r
           end
      else split_whitespace_aux
             (Some (match cur with Some f => f +:+ String a EmptyString
                              | None => String a EmptyString end)) r
  end.

Definition split_whitespace (s : string) : list string :=
  split_whitespace_aux None s.

(** [full.startswith(x)] *)
Definition startswith (full x : string) : bool := String.prefix x full.

(** Universal newlines of a text-mode [open]: CR LF and a lone CR are
    read as LF. *)
Fixpoint translate_newlines (s : string) : string :=
  match s with
  | EmptyString => EmptyString
  | String a r =>
      if char_eqb a "013"
      then match r with
           | String b r' =>
               if char_eqb b "010" then String "010" (translate_newlines r')
               else String "010" (translate_newlines r)
           | EmptyString => String "010" EmptyString
           end
      else String a (translate_newlines r)
  end.

(** [f.readlines()] on translated text: each line keeps its newline; a
    last line without newline is kept as it is; no line is empty. *)
Fixpoint readlines (s : string) : list string :=
  match s with
  | EmptyString => []
  | String a r =>
      if char_eqb a "010" then String a EmptyString :: readlines r
      else match readlines r with
           | [] => [String a EmptyString]
           | l :: ls =>
               match r with
               | EmptyString => [String a EmptyString]
               | _ => String a l :: ls
               end
           end
  end.

End Py.

(** ** Paths and the file system *)

(** A [pathlib.Path]: whether it is anchored at the root, and its
    components. *)
Record Path := mkPath { absolute : bool; parts : list string }.

Global Instance Path_eq_dec : EqDecision Path.
Proof. solve_decision. Defined.

(** [Path(s)] for a string: components are separated by [/]; empty
    components and [.] are dropped. *)
Definition Path_of_str (s : string) : Path :=
  mkPath (Py.startswith s "/")
         (filter (fun c => c <> "" /\ c <> ".") (Py.split "/" s)).

(** [p.name]: the final component, the empty string when there is none. *)
Definition name (p : Path) : string := List.last (parts p) "".

(** What the file system holds at an absolute location. *)
Inductive file_state :=
| Missing                      (* nothing there *)
| Denied                       (* exists, [open] raises [OSError] *)
| File (content : string).     (* a readable file *)

(** ** Events, messages and exceptions *)

Inductive Host := RCC | DCC | BCC.

Global Instance Host_eq_dec : EqDecision Host.
Proof. solve_decision. Defined.

(** One constructor for each [print] statement of the embedded functions. *)
Inductive message :=
| MsgManifestMissing (md5_file : Path)
| MsgFoundSums (n : nat)
| MsgNotInManifest (rpm : string)
| MsgCheckFailed (rpm expected md5 : string)
| MsgMatches (rpm : string)
| MsgAssigned (nm : string) (h : Host)
| MsgUnsure (nm : string)
| MsgCountWrong (h : Host) (found expected : nat)
| MsgRunning (command : string)
| MsgOutput (lines : list string)
| MsgErrorStream (lines : list string)
| MsgExitCode (exitcode : Z)
| MsgSending (local_files : list Path)
| MsgSent
| MsgSendError (e : string)
| MsgPartialInstall
| MsgUploading (n : nat) (upload_dir : string)
| MsgInstalling (remote : string)
| MsgInstallComplete.

(** A channel opened by [exec_command] is identified by its command. *)
Definition channel := string.

Inductive stream := Stdout | Stderr.

(** What a run does to the outside world.  [StdinClose] and
    [ShutdownWrite] are operations of the channel interface; they are part
    of the alphabet so that their absence from a run can be stated. *)
Inductive event :=
| Print (m : message)
| AskContinue (answer : bool)
| FindPartial (full : string) (partial_list : list string)
| FsExists (p : list string)
| FsOpen (p : list string) (mode : string)
| Connect (hostname username password : string) (timeout : Z)
| ExecCommand (command : string)
| StdinWrite (ch : channel) (data : string)
| StdinFlush (ch : channel)
| StdinClose (ch : channel)
| ShutdownWrite (ch : channel)
| RecvExitStatus (ch : channel) (exitcode : Z)
| ReadLines (ch : channel) (s : stream)
| ScpPut (files : list Path) (remote_path : string) (preserve_times : bool).

Inductive exn :=
| AssertionError
| IndexError
| OSError
| ConnectionError.

Inductive result (A : Type) :=
| Ok (a : A)
| Raise (e : exn).
Arguments Ok {A} a.
Arguments Raise {A} e.

(** The world a run talks to.  Answers that can change during a run are
    functions of the history of events up to the question. *)
Record Env := mkEnv {
  cwd : list string;
  fs : list string -> file_state;
  hexdigest : string -> string;               (* hashlib.md5 of a content *)
  today : string;                             (* date.today() as %Y%m%d *)
  connect_error : list event -> bool;         (* does [connect] raise *)
  exit_status : list event -> Z;
  output_lines : list event -> stream -> list string;
  put_error : list event -> option string;    (* exception of [scp.put] *)
  operator_yes : list event -> bool           (* the answer typed to [yesno] *)
}.

(** ** Computations *)

Definition M (A : Type) : Type := list event -> list event * result A.

Definition ret {A} (a : A) : M A := fun _ => ([], Ok a).

Definition raise {A} (e : exn) : M A := fun _ => ([], Raise e).

Definition bind {A B} (m : M A) (k : A -> M B) : M B :=
  fun h =>
    match m h with
    | (t1, Ok a) => let '(t2, r) := k a (h ++ t1) in (t1 ++ t2, r)
    | (t1, Raise e) => (t1, Raise e)
    end.

Definition emit (e : event) : M unit := fun _ => ([e], Ok tt).

(** Read an answer of the world at the current history. *)
Definition ask {A} (f : list event -> A) : M A := fun h => ([], Ok (f h)).

Global Instance exn_eq_dec : EqDecision exn.
Proof. solve_decision. Defined.

(** [try: m except e: handler] *)
Definition try_except {A} (m : M A) (e : exn) (handler : M A) : M A :=
  fun h =>
    match m h with
    | (t1, Raise e') =>
        if decide (e' = e)
        then let '(t2, r) := handler (h ++ t1) in (t1 ++ t2, r)
        else (t1, Raise e')
    | done => done
    end.

Declare Scope py_scope.
Delimit Scope py_scope with py.
Notation "x <- m ;; k" := (bind m (fun x => k))
  (at level 100, m at next level, right associativity) : py_scope.
Notation "m ;;; k" := (bind m (fun _ => k))
  (at level 100, right associativity) : py_scope.
Local Open Scope py_scope.

Definition print (m : message) : M unit := emit (Print m).

(** [for x in l: body x], where the body updates a loop state. *)
Fixpoint for_each {A S} (body : S -> A -> M S) (l : list A) (s : S) : M S :=
  match l with
  | [] => ret s
  | x :: l' => s' <- body s x ;; for_each body l' s'
  end.

(** The events added and the outcome of a computation run after [h]. *)
Definition trace {A} (m : M A) (h : list event) : list event := fst (m h).
Definition outcome {A} (m : M A) (h : list event) : result A := snd (m h).

(** ** The package lists of the three hosts *)

Definition BCC_PACK_LIST : list string :=
  [ "ckct-BaseCC";
    "ckct-bcc_config" ].

Definition DCC_PACK_LIST : list string :=
  [ "ckct-dasControl";
    "ckct-dcc_config";
    "ckct-DiscCC";
    "ckct-spellmanXRayControl" ].

Definition RCC_PACK_LIST : list string :=
  [ "ckct-DataHandler";
    "ckct-imaging";
    "ckct-kmod";
    "ckct-logger";
    "ckct-motorControl";
    "ckct-mscp";
    "ckct-rcc_config";
    "ckct-ReconCC";
    "ckct-recorder";
    "ckct-tools";
    "ckct-utils";
    "ckct-utils49172" ].

(** ** Exceptions of the language *)

Definition py_assert (b : bool) : M unit :=
  if b then ret tt else raise AssertionError.

(** [s[i]] on a string. *)
Definition str_getitem (s : string) (i : Z) : M ascii :=
  match Py.index s i with
  | Some c => ret c
  | None => raise IndexError
  end.

(** [l[i]] on a list, for an index that is not negative. *)
Definition list_getitem {A} (l : list A) (i : nat) : M A :=
  match l !! i with
  | Some x => ret x
  | None => raise IndexError
  end.

(** ** The hash object of [hashlib.md5]

    The state of the accumulator is the sequence of bytes fed to it;
    [hexdigest] of the environment maps it to the digest. *)

(** [f.read(n)]: the chunk read and what is left of the file. *)
Fixpoint read (f : string) (n : Z) : string * string :=
  match f with
  | EmptyString => (EmptyString, EmptyString)
  | String a r =>
      if n <=? 0 then (EmptyString, f)
      else let '(chunk, rest) := read r (n - 1) in (String a chunk, rest)
  end.

(** [while chunk := f.read(n): file_hash.update(chunk)].  Each turn with a
    non-empty chunk shortens the file, so [S (length f)] turns are enough
    when [n] is positive. *)
Fixpoint update_loop (turns : nat) (n : Z) (f : string) (file_hash : string)
    : string :=
  match turns with
  | O => file_hash
  | S k =>
      let '(chunk, rest) := read f n in
      match chunk with
      | EmptyString => file_hash
      | _ => update_loop k n rest (file_hash +:+ chunk)
      end
  end.

Definition newline : string := String "010" EmptyString.

(** ** The functions of installtool.py *)

Section Installtool.

Variable env : Env.

(** [pathlib.Path(p).resolve()] as the absolute component list. *)
Definition resolve (p : Path) : list string :=
  if absolute p then parts p else cwd env ++ parts p.

(** [path.exists()] *)
Definition path_exists (p : list string) : M bool :=
  emit (FsExists p) ;;;
  ret (match fs env p with Missing => false | _ => true end).

(** [open(path, mode)]: the file object is what is left to read of the
    content; opening what is not a readable file raises [OSError]. *)
Definition open_file (p : list string) (mode : string) : M string :=
  emit (FsOpen p mode) ;;;
  match fs env p with
  | File content => ret content
  | _ => raise OSError
  end.

(** [calc_md5(path)], called with a string. *)
Definition calc_md5 (path : string) : M string :=
  let path := resolve (Path_of_str path) in
  ex <- path_exists path ;;
  py_assert ex ;;;
  f <- open_file path "rb" ;;
  let file_hash := update_loop (S (String.length f)) 8192 f EmptyString in
  ret (hexdigest env file_hash).

(** One turn of the loop over the lines of the manifest. *)
Definition read_md5_line (hashes : gmap string string) (line : string)
    : M (gmap string string) :=
  c0 <- str_getitem line 0 ;;
  skip <- (if negb (Py.char_eqb c0 "|") then ret true
           else c <- str_getitem line (-2) ;; ret (negb (Py.char_eqb c "|"))) ;;
  if skip : bool then ret hashes
  else
    let row := Py.split " " (Py.strip (Py.remove_char "|" line)) in
    v <- list_getitem row 0 ;;
    k <- list_getitem row 2 ;;
    ret (<[k := v]> hashes).

(** [read_md5_file(path)] *)
Definition read_md5_file (path : Path) : M (gmap string string) :=
  let path := resolve path in
  ex <- path_exists path ;;
  py_assert ex ;;;
  f <- open_file path "r" ;;
  let lines := Py.readlines (Py.translate_newlines f) in
  for_each read_md5_line lines ∅.

(** One turn of the loop of [verify_md5s]; the state is [passed]. *)
Definition verify_step (hashes : gmap string string) (passed : bool)
    (rpm : Path) : M bool :=
  let rpm := name rpm in
  match hashes !! rpm with
  | None => print (MsgNotInManifest rpm) ;;; ret false
  | Some expected =>
      md5 <- calc_md5 rpm ;;
      if negb (String.eqb md5 expected)
      then print (MsgCheckFailed rpm expected md5) ;;; ret false
      else print (MsgMatches rpm) ;;; ret passed
  end.

(** [verify_md5s(rpms, md5_file)] *)
Definition verify_md5s (rpms : list Path) (md5_file : Path) : M bool :=
  r <- try_except
         (hashes <- read_md5_file md5_file ;; ret (inl hashes))
         AssertionError
         (print (MsgManifestMissing md5_file) ;;; ret (inr false)) ;;
  match r with
  | inr b => ret b
  | inl hashes =>
      print (MsgFoundSums (size hashes)) ;;;
      for_each (verify_step hashes) rpms true
  end.

(** The local variables of [pack_list]. *)
Record pack_state := mkPack {
  rcc_pack_list : list Path;
  dcc_pack_list : list Path;
  bcc_pack_list : list Path;
  all_ok : bool
}.

(** The inner function [find_partial]; the call is recorded. *)
Definition find_partial (full : string) (partial_list : list string) : M bool :=
  emit (FindPartial full partial_list) ;;;
  let result := List.filter (fun x => Py.startswith full x) partial_list in
  ret (0 <? length result)%nat.

(** One turn of the loop of [pack_list] over the found packages. *)
Definition pack_step (st : pack_state) (rpm : Path) : M pack_state :=
  let nm := name rpm in
  r <- find_partial nm RCC_PACK_LIST ;;
  if r : bool then
    print (MsgAssigned nm RCC) ;;;
    ret (mkPack (rcc_pack_list st ++ [rpm]) (dcc_pack_list st)
                (bcc_pack_list st) (all_ok st))
  else
    d <- find_partial nm DCC_PACK_LIST ;;
    if d : bool then
      print (MsgAssigned nm DCC) ;;;
      ret (mkPack (rcc_pack_list st) (dcc_pack_list st ++ [rpm])
                  (bcc_pack_list st) (all_ok st))
    else
      b <- find_partial nm BCC_PACK_LIST ;;
      if b : bool then
        print (MsgAssigned nm BCC) ;;;
        ret (mkPack (rcc_pack_list st) (dcc_pack_list st)
                    (bcc_pack_list st ++ [rpm]) (all_ok st))
      else
        print (MsgUnsure nm) ;;;
        ret (mkPack (rcc_pack_list st) (dcc_pack_list st)
                    (bcc_pack_list st) false).

(** One of the three length checks that follow the loop. *)
Definition count_check (h : Host) (found : list Path) (expected : list string)
    (ok : bool) : M bool :=
  if negb (length found =? length expected)%nat
  then print (MsgCountWrong h (length found) (length expected)) ;;; ret false
  else ret ok.

(** [pack_list] up to the question to the operator: the three lists and
    [all_ok]. *)
Definition pack_list_check (found_rpms : list Path) : M pack_state :=
  st <- for_each pack_step found_rpms (mkPack [] [] [] true) ;;
  ok <- count_check RCC (rcc_pack_list st) RCC_PACK_LIST (all_ok st) ;;
  ok <- count_check DCC (dcc_pack_list st) DCC_PACK_LIST ok ;;
  ok <- count_check BCC (bcc_pack_list st) BCC_PACK_LIST ok ;;
  ret (mkPack (rcc_pack_list st) (dcc_pack_list st) (bcc_pack_list st) ok).

(** [yesno(question)] as [pack_list] sees it when the operator ends up
    answering: the answer.  The loop that asks again and the [EOFError] of
    an input that ends are not here; they are in [Console.yesno]. *)
Definition yesno : M bool :=
  a <- ask (operator_yes env) ;;
  emit (AskContinue a) ;;;
  ret a.

(** [pack_list(found_rpms)]; [None] is Python's [None]. *)
Definition pack_list (found_rpms : list Path)
    : M (option (list Path * list Path * list Path)) :=
  st <- pack_list_check found_rpms ;;
  cont <- (if negb (all_ok st) then yesno else ret true) ;;
  if negb cont then ret None
  else ret (Some (rcc_pack_list st, dcc_pack_list st, bcc_pack_list st)).

(** [remote_connect]: the client and the scp client are not told apart
    from the session they belong to; the host key policy is a setting of
    the local client and leaves no event. *)
Definition remote_connect (remote_ip remote_username remote_password : string)
    : M (unit * unit) :=
  emit (Connect remote_ip remote_username remote_password 10) ;;;
  err <- ask (connect_error env) ;;
  if err : bool then raise ConnectionError else ret (tt, tt).

(** [stdout.channel.recv_exit_status()] *)
Definition recv_exit_status (ch : channel) : M Z :=
  code <- ask (exit_status env) ;;
  emit (RecvExitStatus ch code) ;;;
  ret code.

(** [stdout.readlines()] and [stderr.readlines()] of a channel. *)
Definition channel_readlines (ch : channel) (s : stream) : M (list string) :=
  emit (ReadLines ch s) ;;;
  ask (fun h => output_lines env h s).

(** The three prints that end both command functions. *)
Definition report (ch : channel) (exitcode : Z) : M unit :=
  out <- channel_readlines ch Stdout ;;
  print (MsgOutput out) ;;;
  err <- channel_readlines ch Stderr ;;
  print (MsgErrorStream err) ;;;
  print (MsgExitCode exitcode).

(** [remote_privileged_command(ssh, command, remote_password)] *)
Definition remote_privileged_command (ssh : unit)
    (command remote_password : string) : M bool :=
  let command := "sudo -S -p '' " +:+ command in
  print (MsgRunning command) ;;;
  emit (ExecCommand command) ;;;
  emit (StdinWrite command (remote_password +:+ newline)) ;;;
  emit (StdinFlush command) ;;;
  exitcode <- recv_exit_status command ;;
  report command exitcode ;;;
  ret (exitcode =? 0).

(** [remote_command(ssh, command)] *)
Definition remote_command (ssh : unit) (command : string) : M bool :=
  print (MsgRunning command) ;;;
  emit (ExecCommand command) ;;;
  exitcode <- recv_exit_status command ;;
  report command exitcode ;;;
  ret (exitcode =? 0).

(** [scp_files(scp, local_files, remote_path)] *)
Definition scp_files (scp : unit) (local_files : list Path)
    (remote_path : string) : M bool :=
  print (MsgSending local_files) ;;;
  emit (ScpPut local_files remote_path true) ;;;
  err <- ask (put_error env) ;;
  match err with
  | None => print MsgSent ;;; ret true
  | Some e => print (MsgSendError e) ;;; ret false
  end.

(** [yum_install_remote(ssh, path, remote_password)] *)
Definition yum_install_remote (ssh : unit) (path remote_password : string)
    : M bool :=
  let command := "yum -y install " +:+ path in
  remote_privileged_command ssh command remote_password.

(** The inner function [_check_fail]: [Some false] after the notice,
    Python's [None] otherwise. *)
Definition _check_fail (res : bool) : M (option bool) :=
  if negb res then print MsgPartialInstall ;;; ret (Some false)
  else ret None.

Definition upload_dir : string := "installtool-" +:+ today env.

(** One turn of the loop of [install_remote] over the remote paths. *)
Definition install_step (ssh : unit) (remote_password : string) (_ : unit)
    (remote : string) : M unit :=
  print (MsgInstalling remote) ;;;
  res <- yum_install_remote ssh remote remote_password ;;
  _check_fail res ;;;
  ret tt.

(** [install_remote(rpms, remote_ip, remote_username, remote_password)] *)
Definition install_remote (rpms : list Path)
    (remote_ip remote_username remote_password : string) : M bool :=
  session <- remote_connect remote_ip remote_username remote_password ;;
  let '(ssh, scp) := session in
  print (MsgUploading (length rpms) upload_dir) ;;;
  res <- remote_command ssh ("mkdir -p " +:+ upload_dir) ;;
  _check_fail res ;;;
  res <- scp_files scp rpms upload_dir ;;
  _check_fail res ;;;
  let remotes := map (fun x => upload_dir +:+ "/" +:+ name x) rpms in
  for_each (install_step ssh remote_password) remotes tt ;;;
  print MsgInstallComplete ;;;
  ret true.

End Installtool.

(** ** Vocabulary of the statements *)

(** *** Classification *)

(** Does [nm] start with one of the prefixes of [partial_list]. *)
Definition matches (partial_list : list string) (nm : string) : bool :=
  existsb (fun x => Py.startswith nm x) partial_list.

(** The prefix list of a host. *)
Definition expected (h : Host) : list string :=
  match h with
  | RCC => RCC_PACK_LIST
  | DCC => DCC_PACK_LIST
  | BCC => BCC_PACK_LIST
  end.

(** First match in the order RCC, DCC, BCC. *)
Definition assigned_host (rpm : Path) : option Host :=
  if matches RCC_PACK_LIST (name rpm) then Some RCC
  else if matches DCC_PACK_LIST (name rpm) then Some DCC
  else if matches BCC_PACK_LIST (name rpm) then Some BCC
  else None.

Definition assigned_to (h : Host) (rpm : Path) : bool :=
  bool_decide (assigned_host rpm = Some h).

Definition unassigned (rpm : Path) : bool :=
  bool_decide (assigned_host rpm = None).

(** The prefix lists an artifact name is tested against, in order. *)
Definition tested (nm : string) : list (string * list string) :=
  if matches RCC_PACK_LIST nm then [(nm, RCC_PACK_LIST)]
  else if matches DCC_PACK_LIST nm
       then [(nm, RCC_PACK_LIST); (nm, DCC_PACK_LIST)]
       else [(nm, RCC_PACK_LIST); (nm, DCC_PACK_LIST); (nm, BCC_PACK_LIST)].

(** The calls of [find_partial] recorded in a trace. *)
Definition find_partial_calls (t : list event) : list (string * list string) :=
  omap (fun e => match e with
                 | FindPartial full l => Some (full, l)
                 | _ => None
                 end) t.

(** The state of [pack_list] after one more artifact. *)
Definition pack_next (st : pack_state) (rpm : Path) : pack_state :=
  match assigned_host rpm with
  | Some RCC => mkPack (rcc_pack_list st ++ [rpm]) (dcc_pack_list st)
                       (bcc_pack_list st) (all_ok st)
  | Some DCC => mkPack (rcc_pack_list st) (dcc_pack_list st ++ [rpm])
                       (bcc_pack_list st) (all_ok st)
  | Some BCC => mkPack (rcc_pack_list st) (dcc_pack_list st)
                       (bcc_pack_list st ++ [rpm]) (all_ok st)
  | None => mkPack (rcc_pack_list st) (dcc_pack_list st)
                   (bcc_pack_list st) false
  end.

(** The list [pack_list] holds for a host. *)
Definition pack_of (h : Host) (st : pack_state) : list Path :=
  match h with
  | RCC => rcc_pack_list st
  | DCC => dcc_pack_list st
  | BCC => bcc_pack_list st
  end.

(** *** Verification *)

(** Where [verify_md5s] looks for the file of an artifact. *)
Definition digest_path (env : Env) (rpm : Path) : list string :=
  resolve env (Path_of_str (name rpm)).

(** A name that is one path component. *)
Fixpoint has_char (c : ascii) (s : string) : bool :=
  match s with
  | EmptyString => false
  | String a r => Py.char_eqb a c || has_char c r
  end.

Definition is_component (nm : string) : bool :=
  negb (String.eqb nm "") && negb (String.eqb nm ".") && negb (has_char "/" nm).

Definition in_manifest (hashes : gmap string string) (rpm : Path) : bool :=
  bool_decide (is_Some (hashes !! name rpm)).

(** The artifact is absent from the manifest, or its file can be read
    where [verify_md5s] looks for it. *)
Definition digestible (env : Env) (hashes : gmap string string) (rpm : Path)
    : bool :=
  match hashes !! name rpm with
  | None => true
  | Some _ => match fs env (digest_path env rpm) with
              | File _ => true
              | _ => false
              end
  end.

(** The digest of the file found there. *)
Definition computed_md5 (env : Env) (rpm : Path) : string :=
  match fs env (digest_path env rpm) with
  | File content => hexdigest env content
  | _ => EmptyString
  end.

(** The outcome for one artifact. *)
Definition verified (env : Env) (hashes : gmap string string) (rpm : Path)
    : bool :=
  match hashes !! name rpm with
  | None => false
  | Some expected => String.eqb (computed_md5 env rpm) expected
  end.

(** The line reported for one artifact. *)
Definition report_of (env : Env) (hashes : gmap string string) (rpm : Path)
    : message :=
  match hashes !! name rpm with
  | None => MsgNotInManifest (name rpm)
  | Some expected =>
      if String.eqb (computed_md5 env rpm) expected
      then MsgMatches (name rpm)
      else MsgCheckFailed (name rpm) expected (computed_md5 env rpm)
  end.

(** The per-artifact lines of a trace. *)
Definition reports (t : list event) : list message :=
  omap (fun e => match e with
                 | Print (MsgNotInManifest r) => Some (MsgNotInManifest r)
                 | Print (MsgCheckFailed r x m) => Some (MsgCheckFailed r x m)
                 | Print (MsgMatches r) => Some (MsgMatches r)
                 | _ => None
                 end) t.

(** The locations probed for existence, and the files opened for a digest. *)
Definition paths_probed (t : list event) : list (list string) :=
  omap (fun e => match e with FsExists p => Some p | _ => None end) t.

Definition digests_read (t : list event) : list (list string) :=
  omap (fun e => match e with
                 | FsOpen p mode => if String.eqb mode "rb" then Some p else None
                 | _ => None
                 end) t.

(** *** The manifest format *)

(** The fields [read_md5_file] cuts a line into. *)
Definition fields (line : string) : list string :=
  Py.split " " (Py.strip (Py.remove_char "|" line)).

(** The first and the last but one character of the line are pipes. *)
Definition framed (line : string) : bool :=
  match Py.index line 0, Py.index line (-2) with
  | Some a, Some b => Py.char_eqb a "|" && Py.char_eqb b "|"
  | _, _ => false
  end.

(** The line raises no [IndexError]: it has a character; when that is a
    pipe it has a second one; when it is framed it has three fields. *)
Definition line_ok (line : string) : bool :=
  match Py.index line 0 with
  | None => false
  | Some a =>
      if Py.char_eqb a "|"
      then match Py.index line (-2) with
           | None => false
           | Some b =>
               if Py.char_eqb b "|" then (3 <=? length (fields line))%nat
               else true
           end
      else true
  end.

Definition add_row (hashes : gmap string string) (line : string)
    : gmap string string :=
  <[ nth 2 (fields line) "" := nth 0 (fields line) "" ]> hashes.

Definition manifest_lines (content : string) : list string :=
  Py.readlines (Py.translate_newlines content).

(** The mapping of a manifest: the rows of its framed lines, a later row
    replacing an earlier one of the same file name. *)
Definition manifest_of (content : string) : gmap string string :=
  fold_left add_row (List.filter framed (manifest_lines content)) ∅.

(** The manifest format in the words of the specification: a line is kept
    when it starts with a pipe and the character before its trailing
    newline is a pipe; the fields of a kept line are what is left, without
    pipes and trimmed, between runs of whitespace. *)
Fixpoint spec_before_newline (line : string) : option ascii :=
  match line with
  | EmptyString => None
  | String a r =>
      match r with
      | EmptyString => None
      | String b EmptyString =>
          if Py.char_eqb b "010" then Some a else spec_before_newline r
      | _ => spec_before_newline r
      end
  end.

Definition spec_framed (line : string) : bool :=
  Py.startswith line "|"
  && match spec_before_newline line with
     | Some c => Py.char_eqb c "|"
     | None => false
     end.

Definition spec_fields (line : string) : list string :=
  Py.split_whitespace (Py.strip (Py.remove_char "|" line)).

Definition spec_add_row (hashes : gmap string string) (line : string)
    : gmap string string :=
  <[ nth 2 (spec_fields line) "" := nth 0 (spec_fields line) "" ]> hashes.

Definition spec_manifest_of (content : string) : gmap string string :=
  fold_left spec_add_row (List.filter spec_framed (manifest_lines content)) ∅.

(** [line.endswith(newline)]: the line ends with a newline. *)
Fixpoint terminated (line : string) : bool :=
  match line with
  | EmptyString => false
  | String a r =>
      match r with
      | EmptyString => Py.char_eqb a "010"
      | _ => terminated r
      end
  end.

(** A line the specification keeps has three fields. *)
Definition row_complete (line : string) : bool :=
  implb (spec_framed line) (3 <=? length (fields line))%nat.

(** *** Remote operations *)

(** The remote operations of a run and what was noticed about them. *)
Inductive op :=
| Exec (command : string)
| Ran (command : string) (exitcode : Z)
| Put (files : list Path) (remote_path : string)
| PutFailed (e : string)
| Notice.

Definition op_of (e : event) : option op :=
  match e with
  | ExecCommand c => Some (Exec c)
  | RecvExitStatus c code => Some (Ran c code)
  | ScpPut files dir _ => Some (Put files dir)
  | Print (MsgSendError e) => Some (PutFailed e)
  | Print MsgPartialInstall => Some Notice
  | _ => None
  end.

Definition ops (t : list event) : list op := omap op_of t.

(** The notice that follows a result. *)
Definition notice (ok : bool) : list op := if ok then [] else [Notice].

(** The command that installs an artifact from the staging directory. *)
Definition install_command (env : Env) (rpm : Path) : string :=
  "sudo -S -p '' yum -y install " +:+ upload_dir env +:+ "/" +:+ name rpm.

Definition mkdir_command (env : Env) : string := "mkdir -p " +:+ upload_dir env.

(** The operations of one install with exit status [code]. *)
Definition install_ops (env : Env) (rc : Path * Z) : list op :=
  [Exec (install_command env rc.1); Ran (install_command env rc.1) rc.2]
  ++ notice (rc.2 =? 0).

(** The exit statuses the install commands ended with. *)
Definition install_results (os : list op) : list (string * Z) :=
  omap (fun o => match o with
                 | Ran c code =>
                     if Py.startswith c "sudo -S -p '' yum -y install "
                     then Some (c, code) else None
                 | _ => None
                 end) os.

(** The commands sent to the host, in order. *)
Definition commands (os : list op) : list string :=
  omap (fun o => match o with Exec c => Some c | _ => None end) os.

(** ** Example worlds *)

Definition example_manifest : string :=
  "|md5-payload x ckct-tools-1.rpm|" +:+ newline +:+
  "written by md5tool" +:+ newline +:+
  "|md5-logger x ckct-logger-1.rpm|" +:+ newline +:+
  "|md5-module x ckct-kmod-1.rpm|" +:+ newline.

(** The record of the first end-to-end scenario of the specification. *)
Definition scenario_manifest : string :=
  "| 0123456789abcdef0123456789abcdef | - | pkg-a.rpm |" +:+ newline.

Definition example_fs (p : list string) : file_state :=
  if decide (p = ["home"; "op"; "md5.txt"]) then File example_manifest
  else if decide (p = ["home"; "op"; "ckct-tools-1.rpm"]) then File "payload"
  else if decide (p = ["home"; "op"; "ckct-logger-1.rpm"]) then File "tampered"
  else if decide (p = ["home"; "op"; "sub"; "ckct-kmod-1.rpm"]) then File "module"
  else if decide (p = ["home"; "op"; "release"; "md5.txt"])
       then File scenario_manifest
  else if decide (p = ["home"; "op"; "locked"; "md5.txt"]) then Denied
  else Missing.

Definition example_digest (content : string) : string := "md5-" +:+ content.

(** The last command sent in a history. *)
Definition last_command (h : list event) : string :=
  fold_left (fun acc e => match e with ExecCommand c => c | _ => acc end) h "".

(** A world where everything succeeds. *)
Definition example_env : Env :=
  mkEnv ["home"; "op"] example_fs example_digest "20240101"
        (fun _ => false) (fun _ => 0) (fun _ _ => []) (fun _ => None)
        (fun _ => true).

(** The third end-to-end scenario of the specification: of three installs
    only that of [pkgA.rpm] succeeds. *)
Definition scenario_exit (h : list event) : Z :=
  if String.eqb (last_command h) "mkdir -p installtool-20240101"
     || String.eqb (last_command h)
          "sudo -S -p '' yum -y install installtool-20240101/pkgA.rpm"
  then 0 else 1.

Definition scenario_env : Env :=
  mkEnv ["home"; "op"] example_fs example_digest "20240101"
        (fun _ => false) scenario_exit (fun _ _ => []) (fun _ => None)
        (fun _ => false).

(** A world where the staging directory cannot be made, the upload breaks
    and every install fails. *)
Definition failing_env : Env :=
  mkEnv ["home"; "op"] example_fs example_digest "20240101"
        (fun _ => false) (fun _ => 1) (fun _ _ => [])
        (fun _ => Some "lost connection") (fun _ => false).

Definition example_rpms : list Path :=
  [ mkPath true ["home"; "op"; "ckct-tools-1.rpm"];
    mkPath true ["home"; "op"; "ckct-logger-1.rpm"];
    mkPath true ["home"; "op"; "unknown-1.rpm"] ].

Definition nested_rpm : Path :=
  mkPath true ["home"; "op"; "sub"; "ckct-kmod-1.rpm"].

Definition scenario_rpms : list Path :=
  [ mkPath true ["home"; "op"; "pkgA.rpm"];
    mkPath true ["home"; "op"; "pkgB.rpm"];
    mkPath true ["home"; "op"; "pkgC.rpm"] ].

(** ** More vocabulary *)

(** The file name and the digest [read_md5_file] takes from a line. *)
Definition filename_of (line : string) : string := nth 2 (fields line) "".
Definition digest_of (line : string) : string := nth 0 (fields line) "".

(** What was written to the standard input of which channel. *)
Definition stdin_writes (t : list event) : list (channel * string) :=
  omap (fun e => match e with
                 | StdinWrite ch data => Some (ch, data)
                 | _ => None
                 end) t.

(** The uploads attempted. *)
Definition uploads (t : list event) : list (list Path * string * bool) :=
  omap (fun e => match e with
                 | ScpPut files dir preserve => Some (files, dir, preserve)
                 | _ => None
                 end) t.

(** Two prefixes that one name can start with: one is a prefix of the
    other. *)
Definition comparable (p q : string) : bool :=
  String.prefix p q || String.prefix q p.

(** Some prefix of the first list is comparable with one of the second. *)
Definition overlapping (l1 l2 : list string) : bool :=
  existsb (fun p => existsb (comparable p) l2) l1.

(** What the outside answers to a command: exit status, lines of the
    standard output, lines of the standard error. *)
Definition answer : Type := (Z * list string * list string)%type.

(** The events of [remote_command] for a command and its answer. *)
Definition command_events (command : string) (a : answer) : list event :=
  [ Print (MsgRunning command);
    ExecCommand command;
    RecvExitStatus command a.1.1;
    ReadLines command Stdout;
    Print (MsgOutput a.1.2);
    ReadLines command Stderr;
    Print (MsgErrorStream a.2);
    Print (MsgExitCode a.1.1) ].

(** The events of [remote_privileged_command] for the whole command. *)
Definition privileged_events (command remote_password : string) (a : answer)
    : list event :=
  [ Print (MsgRunning command);
    ExecCommand command;
    StdinWrite command (remote_password +:+ newline);
    StdinFlush command;
    RecvExitStatus command a.1.1;
    ReadLines command Stdout;
    Print (MsgOutput a.1.2);
    ReadLines command Stderr;
    Print (MsgErrorStream a.2);
    Print (MsgExitCode a.1.1) ].

(** The notice of [_check_fail]. *)
Definition notice_events (ok : bool) : list event :=
  if ok then [] else [Print MsgPartialInstall].

(** The events of one turn of the install loop. *)
Definition install_events (env : Env) (remote_password : string)
    (ra : Path * answer) : list event :=
  Print (MsgInstalling (upload_dir env +:+ "/" +:+ name ra.1))
    :: privileged_events (install_command env ra.1) remote_password ra.2
    ++ notice_events (ra.2.1.1 =? 0).

(** The events of the upload, [perr] being the exception of [scp.put]. *)
Definition upload_events (env : Env) (rpms : list Path) (perr : option string)
    : list event :=
  [Print (MsgSending rpms); ScpPut rpms (upload_dir env) true]
  ++ match perr with
     | None => [Print MsgSent]
     | Some e => [Print (MsgSendError e); Print MsgPartialInstall]
     end.

(** The events of a whole run of [install_remote] on an established
    session. *)
Definition run_events (env : Env) (rpms : list Path)
    (remote_ip remote_username remote_password : string)
    (a0 : answer) (perr : option string) (answers : list answer) : list event :=
  Connect remote_ip remote_username remote_password 10
    :: Print (MsgUploading (length rpms) (upload_dir env))
    :: command_events (mkdir_command env) a0
    ++ notice_events (a0.1.1 =? 0)
    ++ upload_events env rpms perr
    ++ flat_map (install_events env remote_password) (zip rpms answers)
    ++ [Print MsgInstallComplete].

(** A world whose only file is the manifest [md5.txt] of the working
    directory. *)
Definition manifest_env (content : string) : Env :=
  mkEnv ["home"; "op"]
        (fun p => if decide (p = ["home"; "op"; "md5.txt"])
                  then File content else Missing)
        example_digest "20240101"
        (fun _ => false) (fun _ => 0) (fun _ _ => []) (fun _ => None)
        (fun _ => true).

(** A world whose host refuses the connection. *)
Definition unreachable_env : Env :=
  mkEnv ["home"; "op"] example_fs example_digest "20240101"
        (fun _ => true) (fun _ => 0) (fun _ _ => []) (fun _ => None)
        (fun _ => true).

(** ** The console

    The functions that talk to the operator.  What the operator types is a
    list of lines; [input] takes the first one and raises [EOFError] when
    none is left.  Each function returns what it printed and asked, its
    result, and the lines left. *)

Module Console.

(** [int(s)] for a string of code points below 256: blanks around, a sign,
    decimal digits with single underscores between them.  [None] is
    [ValueError].  (The limit on the number of digits is not modelled.) *)
Definition int_space (c : ascii) : bool :=
  let n := nat_of_ascii c in
  ((9 <=? n) && (n <=? 13) || (n =? 32) || (n =? 133) || (n =? 160))%nat.

Definition digit (c : ascii) : option Z :=
  let n := nat_of_ascii c in
  if ((48 <=? n) && (n <=? 57))%nat then Some (Z.of_nat (n - 48)) else None.

Fixpoint digits (s : string) (acc : Z) (after_digit : bool) : option Z :=
  match s with
  | EmptyString => if after_digit then Some acc else None
  | String c r =>
      match digit c with
      | Some d => digits r (10 * acc + d) true
      | None =>
          if Py.char_eqb c "_" && after_digit then digits r acc false
          else None
      end
  end.

Fixpoint int_lstrip (s : string) : string :=
  match s with
  | EmptyString => EmptyString
  | String a r => if int_space a then int_lstrip r else s
  end.

Fixpoint int_rstrip (s : string) : string :=
  match s with
  | EmptyString => EmptyString
  | String a r =>
      match int_rstrip r with
      | EmptyString => if int_space a then EmptyString else String a EmptyString
      | r' => String a r'
      end
  end.

Definition int (s : string) : option Z :=
  match int_rstrip (int_lstrip s) with
  | String "+" r => digits r 0 false
  | String "-" r => Z.opp <$> digits r 0 false
  | body => digits body 0 false
  end.

(** [s.lower()] for code points below 256. *)
Definition lower_char (c : ascii) : ascii :=
  let n := nat_of_ascii c in
  if ((65 <=? n) && (n <=? 90)
      || (192 <=? n) && (n <=? 222) && negb (n =? 215))%nat
  then ascii_of_nat (n + 32) else c.

Fixpoint lower (s : string) : string :=
  match s with
  | EmptyString => EmptyString
  | String a r => String (lower_char a) (lower r)
  end.

(** One constructor for each [print] statement of the console functions. *)
Inductive said :=
| MenuTitle (title : string)
| Rule
| OptionLine (number : Z) (text : string)
| SelectAllLine (number : Z)
| Blank
| NotAnOption (inp : string)
| EnterValues
| SelectAllAlone
| InvalidChoice
| MovingOn
| StillRunning
| NoRpms (arch target : string)
| FoundPackages
| NoSelection
| Confirming (n : nat) (target : string).

Inductive cevent :=
| Say (m : said)
| Input (prompt : string) (typed : option string).

Inductive cexn :=
| EOFError
| AssertionError
| IndexError.

Inductive reply (A : Type) :=
| Returned (a : A)
| Raised (e : cexn).
Arguments Returned {A} a.
Arguments Raised {A} e.

(** What a console function gives back. *)
Definition told (A : Type) : Type := (list cevent * reply A * list string)%type.

(** [input(prompt)] *)
Definition input (prompt : string) (inputs : list string) : told string :=
  match inputs with
  | [] => ([Input prompt None], Raised EOFError, [])
  | line :: rest => ([Input prompt (Some line)], Returned line, rest)
  end.

(** [selection in range(0, n)] *)
Definition in_range (selection n : Z) : bool :=
  (0 <=? selection) && (selection <? n).

(** The lines [for idx, option in enumerate(options)] prints. *)
Fixpoint option_lines (idx : Z) (options : list string) : list cevent :=
  match options with
  | [] => []
  | o :: more => Say (OptionLine (idx + 1) o) :: option_lines (idx + 1) more
  end.

(** What a line typed to [yesno] answers, if anything. *)
Definition answer_of (sel : string) : option bool :=
  if String.eqb (lower sel) "y" then Some true
  else if String.eqb (lower sel) "n" then Some false
  else None.

(** [yesno(question)]: the loop reads a line at each turn. *)
Fixpoint yesno (question : string) (inputs : list string) : told bool :=
  match inputs with
  | [] => ([Input (question +:+ " [y/N] > ") None], Raised EOFError, [])
  | sel :: rest =>
      if String.eqb (lower sel) "y"
      then ([Input (question +:+ " [y/N] > ") (Some sel)], Returned true, rest)
      else if String.eqb (lower sel) "n"
      then ([Input (question +:+ " [y/N] > ") (Some sel)], Returned false, rest)
      else
        let '(t, r, rest') := yesno question rest in
        (Input (question +:+ " [y/N] > ") (Some sel) :: Say InvalidChoice :: t,
         r, rest')
  end.

(** The [try] block of both menus: [selection = int(inp) - 1] and
    [assert selection in range(0, n)]; [None] when [ValueError] or
    [AssertionError] is caught. *)
Definition choice (n : Z) (inp : string) : option Z :=
  match int inp with
  | Some v => if in_range (v - 1) n then Some (v - 1) else None
  | None => None
  end.



(** The [for inp in inps] loop of [multi_menu]: [None] when an entry is
    refused ([done = False], [indexes = []], [break]). *)
Fixpoint select_each (n : Z) (inps : list string) (indexes : list Z)
    : list cevent * option (list Z) :=
  match inps with
  | [] => ([], Some indexes)
  | inp :: more =>
      let inp := Py.strip inp in
      match choice (n + 1) inp with
      | Some selection => select_each n more (indexes ++ [selection])
      | None => ([Say (NotAnOption inp)], None)
      end
  end.

(** What one turn of the [while] loop of [multi_menu] makes of the line
    typed: the events after the input, and the selection when the turn is
    the last one. *)
Definition select_line (n : Z) (line : string)
    : list cevent * option (list Z) :=
  match select_each n (Py.split "," line) [] with
  | (t, Some indexes) =>
      if bool_decide (n ∈ indexes) && (1 <? length indexes)%nat
      then (t ++ [Say SelectAllAlone], None)
      else (t, Some indexes)
  | (t, None) => (t, None)
  end.

(** The [while not done] loop of [multi_menu]. *)
Fixpoint multi_menu_loop (n : Z) (inputs : list string) : told (list Z) :=
  match inputs with
  | [] => ([Say EnterValues; Input "> " None], Raised EOFError, [])
  | line :: rest =>
      match select_line n line with
      | (t, Some indexes) =>
          (Say EnterValues :: Input "> " (Some line) :: t, Returned indexes, rest)
      | (t, None) =>
          let '(t', r, rest') := multi_menu_loop n rest in
          (Say EnterValues :: Input "> " (Some line) :: t ++ t', r, rest')
      end
  end.

(** [multi_menu(options, title)] *)
Definition multi_menu (options : list string) (title : string)
    (inputs : list string) : told (list Z) :=
  if (length options =? 0)%nat then ([], Raised AssertionError, inputs)
  else
    let n := Z.of_nat (length options) in
    let '(t, r, rest) := multi_menu_loop n inputs in
    (Say (MenuTitle (if String.eqb title "" then "Multi-Selection" else title))
       :: Say Rule :: option_lines 0 options
       ++ Say (SelectAllLine (n + 1)) :: Say Rule :: Say Blank :: t,
     r, rest).

Definition shut_down : string :=
  "Before we proceed, can you verify that the CKCT software is shut down?".

(** The loop of [no_running_sw].  A turn that goes on has read a line, so
    [turns] above the number of lines is never used up; [None] is "out of
    turns". *)
Fixpoint no_running_sw_loop (turns : nat) (inputs : list string)
    : option (told unit) :=
  match turns with
  | O => None
  | S k =>
      let '(t1, r, rest) := yesno shut_down inputs in
      match r with
      | Raised e => Some (t1, Raised e, rest)
      | Returned true => Some (t1 ++ [Say MovingOn], Returned tt, rest)
      | Returned false =>
          match no_running_sw_loop k rest with
          | Some (t2, r2, rest2) => Some (t1 ++ Say StillRunning :: t2, r2, rest2)
          | None => None
          end
      end
  end.

(** [no_running_sw()] *)
Definition no_running_sw (inputs : list string) : option (told unit) :=
  no_running_sw_loop (S (length inputs)) inputs.

(** [str(path)] *)
Definition Path_str (p : Path) : string :=
  match absolute p, parts p with
  | false, [] => "."
  | false, c :: more => fold_left (fun acc x => acc +:+ "/" +:+ x) more c
  | true, l => fold_left (fun acc x => acc +:+ "/" +:+ x) (tail l)
                 ("/" +:+ hd "" l)
  end.

(** [l[i]] on a list, with Python's negative indices; [None] is
    [IndexError]. *)
Definition getitem {A} (l : list A) (i : Z) : option A :=
  let j := if i <? 0 then i + Z.of_nat (length l) else i in
  if j <? 0 then None else l !! Z.to_nat j.

(** [range(0, n)] *)
Definition range0 (n : nat) : list Z := map Z.of_nat (seq 0 n).

(** [[rpms[i] for i in to_install]] *)
Fixpoint pick {A} (rpms : list A) (to_install : list Z) : option (list A) :=
  match to_install with
  | [] => Some []
  | i :: more =>
      match getitem rpms i, pick rpms more with
      | Some x, Some xs => Some (x :: xs)
      | _, _ => None
      end
  end.

Section VerboseAsk.

(** [find_rpms(recursive, title_match)] in the working directory: what the
    search of the file system gives is left to the outside. *)
Variable find_rpms : bool -> string -> list Path.

Definition look_below : string :=
  "If you'd like to continue - would you like me to look into folders below this one?".

(** The loop [while not rpms] of [verbose_rpm_ask].  A turn that goes on
    has read a line, so [turns] above the number of lines is never used
    up; [None] is "out of turns". *)
Fixpoint search_loop (turns : nat) (target arch : string) (rpms : list Path)
    (inputs : list string) : option (told (list Path)) :=
  match rpms with
  | _ :: _ => Some ([], Returned rpms, inputs)
  | [] =>
      match turns with
      | O => None
      | S k =>
          let '(t1, r, rest) := yesno look_below inputs in
          match r with
          | Raised e => Some (Say (NoRpms arch target) :: t1, Raised e, rest)
          | Returned recursive =>
              match search_loop k target arch (find_rpms recursive arch) rest with
              | Some (t2, r2, rest2) =>
                  Some (Say (NoRpms arch target) :: t1 ++ t2, r2, rest2)
              | None => None
              end
          end
      end
  end.

(** The loop [while not done] of [verbose_rpm_ask]. *)
Fixpoint select_loop (turns : nat) (target : string) (rpms : list Path)
    (inputs : list string) : option (told (list Z)) :=
  match turns with
  | O => None
  | S k =>
      let '(t1, r, rest) := multi_menu (map Path_str rpms) "Select Packages"
                              inputs in
      match r with
      | Raised e => Some (Say FoundPackages :: t1, Raised e, rest)
      | Returned to_install =>
          if (length to_install <? 1)%nat
          then match select_loop k target rpms rest with
               | Some (t2, r2, rest2) =>
                   Some (Say FoundPackages :: t1 ++ Say NoSelection :: t2,
                         r2, rest2)
               | None => None
               end
          else
            let to_install :=
              if bool_decide (Z.of_nat (length rpms) ∈ to_install)
              then range0 (length rpms) else to_install in
            let '(t2, r2, rest2) := yesno "Ready to proceed?" rest in
            match r2 with
            | Raised e =>
                Some (Say FoundPackages
                        :: t1 ++ Say (Confirming (length to_install) target) :: t2,
                      Raised e, rest2)
            | Returned true =>
                Some (Say FoundPackages
                        :: t1 ++ Say (Confirming (length to_install) target) :: t2,
                      Returned to_install, rest2)
            | Returned false =>
                match select_loop k target rpms rest2 with
                | Some (t3, r3, rest3) =>
                    Some (Say FoundPackages
                            :: t1 ++ Say (Confirming (length to_install) target)
                            :: t2 ++ t3,
                          r3, rest3)
                | None => None
                end
            end
      end
  end.

(** [verbose_rpm_ask(target, arch)] *)
Definition verbose_rpm_ask (target arch : string) (inputs : list string)
    : option (told (list Path)) :=
  match search_loop (S (length inputs)) target arch (find_rpms false arch)
          inputs with
  | None => None
  | Some (t1, Raised e, rest) => Some (t1, Raised e, rest)
  | Some (t1, Returned rpms, rest) =>
      match select_loop (S (length rest)) target rpms rest with
      | None => None
      | Some (t2, Raised e, rest2) => Some (t1 ++ t2, Raised e, rest2)
      | Some (t2, Returned to_install, rest2) =>
          match pick rpms to_install with
          | Some chosen => Some (t1 ++ t2, Returned chosen, rest2)
          | None => Some (t1 ++ t2, Raised IndexError, rest2)
          end
      end
  end.

End VerboseAsk.

End Console.

(** * Proofs *)

(** ** Running computations *)

Lemma bind_ok {A B} (m : M A) (k : A -> M B) h t1 a :
  m h = (t1, Ok a) ->
  bind m k h = (t1 ++ fst (k a (h ++ t1)), snd (k a (h ++ t1))).
Proof. intros E. unfold bind. rewrite E. by destruct (k a (h ++ t1)). Qed.

Lemma bind_raise {A B} (m : M A) (k : A -> M B) h t1 e :
  m h = (t1, Raise e) -> bind m k h = (t1, Raise e).
Proof. intros E. unfold bind. by rewrite E. Qed.

Lemma bind_run {A B} (m : M A) (k : A -> M B) h t1 a t2 r :
  m h = (t1, Ok a) -> k a (h ++ t1) = (t2, r) -> bind m k h = (t1 ++ t2, r).
Proof. intros E1 E2. unfold bind. by rewrite E1, E2. Qed.

Lemma for_each_cons {A S} (body : S -> A -> M S) x l s :
  for_each body (x :: l) s = bind (body s x) (fun s' => for_each body l s').
Proof. reflexivity. Qed.

(** ** Classification by first match *)

Lemma filter_nonempty_existsb {A} (f : A -> bool) (l : list A) :
  (0 <? length (List.filter f l))%nat = existsb f l.
Proof.
  induction l as [|x l IH]; [done|]. simpl. by destruct (f x).
Qed.

Lemma find_partial_run full l h :
  find_partial full l h = ([FindPartial full l], Ok (matches l full)).
Proof.
  unfold find_partial, matches. rewrite filter_nonempty_existsb. reflexivity.
Qed.

Lemma find_partial_calls_app t1 t2 :
  find_partial_calls (t1 ++ t2) = find_partial_calls t1 ++ find_partial_calls t2.
Proof. apply omap_app. Qed.

Lemma pack_step_run st rpm h :
  exists t, pack_step st rpm h = (t, Ok (pack_next st rpm))
            /\ find_partial_calls t = tested (name rpm).
Proof.
  unfold pack_step, pack_next, assigned_host, tested.
  unfold bind at 1. rewrite find_partial_run.
  destruct (matches RCC_PACK_LIST (name rpm)).
  { eexists; split; reflexivity. }
  unfold bind at 1. rewrite find_partial_run.
  destruct (matches DCC_PACK_LIST (name rpm)).
  { eexists; split; reflexivity. }
  unfold bind at 1. rewrite find_partial_run.
  destruct (matches BCC_PACK_LIST (name rpm)); eexists; split; reflexivity.
Qed.

Lemma pack_loop_run rpms : forall st h,
  exists t, for_each pack_step rpms st h = (t, Ok (fold_left pack_next rpms st))
            /\ find_partial_calls t = flat_map (fun rpm => tested (name rpm)) rpms.
Proof.
  induction rpms as [|rpm rpms IH]; intros st h.
  { exists []. done. }
  destruct (pack_step_run st rpm h) as (t1 & E1 & C1).
  destruct (IH (pack_next st rpm) (h ++ t1)) as (t2 & E2 & C2).
  exists (t1 ++ t2). rewrite for_each_cons, (bind_ok _ _ _ _ _ E1), E2. simpl.
  split; [done|]. by rewrite find_partial_calls_app, C1, C2.
Qed.

Lemma assigned_to_cases rpm :
  match assigned_host rpm with
  | Some h => forall h', assigned_to h' rpm = bool_decide (h' = h)
  | None => forall h', assigned_to h' rpm = false
  end.
Proof.
  unfold assigned_to. destruct (assigned_host rpm) as [h|]; intros h'.
  - apply bool_decide_ext. split; congruence.
  - by apply bool_decide_eq_false.
Qed.

Lemma pack_next_fold rpms : forall st host,
  pack_of host (fold_left pack_next rpms st)
  = pack_of host st ++ List.filter (assigned_to host) rpms.
Proof.
  induction rpms as [|rpm rpms IH]; intros st host; simpl.
  { by rewrite app_nil_r. }
  rewrite IH. unfold pack_next.
  pose proof (assigned_to_cases rpm) as Hc.
  destruct (assigned_host rpm) as [[]|]; rewrite (Hc host);
    destruct host; simpl; by rewrite <- ?app_assoc.
Qed.

Lemma pack_next_all_ok rpms : forall st,
  all_ok (fold_left pack_next rpms st)
  = all_ok st && forallb (fun rpm => negb (unassigned rpm)) rpms.
Proof.
  induction rpms as [|rpm rpms IH]; intros st; simpl.
  { by rewrite andb_true_r. }
  rewrite IH. unfold pack_next, unassigned.
  destruct (assigned_host rpm) as [[]|]; simpl; try done.
  by rewrite andb_false_r.
Qed.

Lemma count_check_run host found expd ok h :
  exists t, count_check host found expd ok h
            = (t, Ok (ok && (length found =? length expd)%nat))
            /\ find_partial_calls t = [].
Proof.
  unfold count_check. destruct (length found =? length expd)%nat; simpl.
  - exists []. by rewrite andb_true_r.
  - eexists. rewrite andb_false_r. split; reflexivity.
Qed.

(** The flag and the lists [pack_list] has when it reaches its question. *)
Lemma pack_list_check_run rpms h :
  exists t,
    pack_list_check rpms h
    = (t, Ok (mkPack (List.filter (assigned_to RCC) rpms)
                     (List.filter (assigned_to DCC) rpms)
                     (List.filter (assigned_to BCC) rpms)
                     (forallb (fun rpm => negb (unassigned rpm)) rpms
                      && (length (List.filter (assigned_to RCC) rpms)
                          =? length RCC_PACK_LIST)%nat
                      && (length (List.filter (assigned_to DCC) rpms)
                          =? length DCC_PACK_LIST)%nat
                      && (length (List.filter (assigned_to BCC) rpms)
                          =? length BCC_PACK_LIST)%nat)))
    /\ find_partial_calls t = flat_map (fun rpm => tested (name rpm)) rpms.
Proof.
  unfold pack_list_check.
  destruct (pack_loop_run rpms (mkPack [] [] [] true) h) as (t0 & E0 & C0).
  set (st := fold_left pack_next rpms (mkPack [] [] [] true)) in *.
  assert (Hl : forall host, pack_of host st = List.filter (assigned_to host) rpms).
  { intros host. unfold st. rewrite pack_next_fold. by destruct host. }
  assert (Ha : all_ok st = forallb (fun rpm => negb (unassigned rpm)) rpms).
  { unfold st. by rewrite pack_next_all_ok. }
  pose proof (Hl RCC) as HR. pose proof (Hl DCC) as HD. pose proof (Hl BCC) as HB.
  simpl in HR, HD, HB.
  destruct (count_check_run RCC (rcc_pack_list st) RCC_PACK_LIST (all_ok st)
              (h ++ t0)) as (t1 & E1 & C1).
  destruct (count_check_run DCC (dcc_pack_list st) DCC_PACK_LIST
              (all_ok st && (length (rcc_pack_list st) =? length RCC_PACK_LIST)%nat)
              (h ++ t0 ++ t1)) as (t2 & E2 & C2).
  destruct (count_check_run BCC (bcc_pack_list st) BCC_PACK_LIST
              (all_ok st && (length (rcc_pack_list st) =? length RCC_PACK_LIST)%nat
               && (length (dcc_pack_list st) =? length DCC_PACK_LIST)%nat)
              (h ++ t0 ++ t1 ++ t2)) as (t3 & E3 & C3).
  exists (t0 ++ t1 ++ t2 ++ t3).
  rewrite (bind_ok _ _ _ _ _ E0).
  rewrite (bind_ok _ _ _ _ _ E1).
  rewrite <- !app_assoc.
  rewrite (bind_ok _ _ _ _ _ E2).
  rewrite <- !app_assoc.
  rewrite (bind_ok _ _ _ _ _ E3).
  unfold ret; simpl. rewrite !app_nil_r.
  rewrite HR, HD, HB, Ha. split; [reflexivity|].
  rewrite !find_partial_calls_app, C0, C1, C2, C3. by rewrite !app_nil_r.
Qed.

Lemma filter_nil_forallb {A} (f : A -> bool) (l : list A) :
  List.filter f l = [] <-> forallb (fun x => negb (f x)) l = true.
Proof.
  induction l as [|x l IH]; simpl; [done|].
  destruct (f x); simpl; [split; discriminate | exact IH].
Qed.


Lemma pack_list_run env rpms h st t :
  pack_list_check rpms h = (t, Ok st) ->
  pack_list env rpms h
  = (t ++ (if all_ok st then [] else [AskContinue (operator_yes env (h ++ t))]),
     Ok (if all_ok st || operator_yes env (h ++ t)
         then Some (rcc_pack_list st, dcc_pack_list st, bcc_pack_list st)
         else None)).
Proof.
  intros E. unfold pack_list. rewrite (bind_ok _ _ _ _ _ E).
  destruct (all_ok st); simpl; [done|].
  unfold yesno, bind, ask, emit, ret; simpl.
  rewrite ?app_nil_r.
  by destruct (operator_yes env (h ++ t)).
Qed.

(** C3: the flag [all_ok] that [pack_list] holds when the classification
    and the three length checks are done is true exactly when every host
    got as many artifacts as its prefix list is long and no artifact was
    left unassigned; more artifacts than expected for a host make it false.
    The operator is asked whether to continue exactly when it is false. *)
Theorem pack_list_complete_iff env rpms h :
  exists st,
    outcome (pack_list_check rpms) h = Ok st
    /\ (forall host, pack_of host st = List.filter (assigned_to host) rpms)
    /\ (all_ok st = true <->
        (forall host, length (pack_of host st) = length (expected host))
        /\ List.filter unassigned rpms = [])
    /\ (forall host, (length (expected host) < length (pack_of host st))%nat ->
        all_ok st = false)
    /\ trace (pack_list env rpms) h
       = trace (pack_list_check rpms) h
         ++ (if all_ok st then []
             else [AskContinue
                     (operator_yes env (h ++ trace (pack_list_check rpms) h))]).
Proof.
  destruct (pack_list_check_run rpms h) as (t & E & _).
  eexists. unfold outcome, trace. rewrite (pack_list_run env _ _ _ _ E), E.
  simpl. split; [reflexivity|].
  assert (Hiff :
    forallb (fun rpm => negb (unassigned rpm)) rpms
    && (length (List.filter (assigned_to RCC) rpms) =? length RCC_PACK_LIST)%nat
    && (length (List.filter (assigned_to DCC) rpms) =? length DCC_PACK_LIST)%nat
    && (length (List.filter (assigned_to BCC) rpms) =? length BCC_PACK_LIST)%nat
    = true <->
    (forall host,
       length (pack_of host
                 (mkPack (List.filter (assigned_to RCC) rpms)
                         (List.filter (assigned_to DCC) rpms)
                         (List.filter (assigned_to BCC) rpms) true))
       = length (expected host))
    /\ List.filter unassigned rpms = []).
  { rewrite !andb_true_iff, !Nat.eqb_eq, filter_nil_forallb. split.
    - intros [[[Hu Hr] Hd] Hb]. split; [|done]. by intros [].
    - intros [Hl Hu]. split_and!; [done|apply (Hl RCC)|apply (Hl DCC)|apply (Hl BCC)]. }
  split_and!.
  - by intros [].
  - rewrite Hiff. split; intros [Hl Hu]; (split; [|done]); intros host;
      specialize (Hl host); by destruct host.
  - intros host Hlt. apply not_true_is_false. rewrite Hiff. intros [Hl _].
    specialize (Hl host). destruct host; simpl in *; lia.
  - reflexivity.
Qed.


(** ** Chunked reading *)

Lemma append_cons a (s t : string) : String a s +:+ t = String a (s +:+ t).
Proof. reflexivity. Qed.

Lemma append_nil (t : string) : EmptyString +:+ t = t.
Proof. reflexivity. Qed.

Lemma append_empty_r (s : string) : s +:+ EmptyString = s.
Proof. induction s; rewrite ?append_cons, ?append_nil; congruence. Qed.

Lemma append_assoc_str (a b c : string) : (a +:+ b) +:+ c = a +:+ b +:+ c.
Proof. induction a; rewrite ?append_cons, ?append_nil; congruence. Qed.

Lemma read_splits f : forall n,
  fst (read f n) +:+ snd (read f n) = f.
Proof.
  induction f as [|a f IH]; intros n; simpl; [done|].
  destruct (n <=? 0); simpl; [done|].
  specialize (IH (n - 1)). destruct (read f (n - 1)). simpl in *.
  rewrite append_cons. congruence.
Qed.

Lemma read_shortens a f n :
  0 < n ->
  exists chunk, fst (read (String a f) n) = String a chunk
                /\ (String.length (snd (read (String a f) n)) <= String.length f)%nat.
Proof.
  intros Hn. simpl. destruct (Z.leb_spec n 0); [lia|].
  pose proof (read_splits f (n - 1)) as Hs.
  destruct (read f (n - 1)) as [chunk rest]. simpl in *.
  exists chunk. split; [done|]. subst f.
  clear. induction chunk; rewrite ?append_cons, ?append_nil; simpl; lia.
Qed.

Lemma update_loop_feeds_all n : 0 < n -> forall turns f file_hash,
  (String.length f < turns)%nat ->
  update_loop turns n f file_hash = file_hash +:+ f.
Proof.
  intros Hn. induction turns as [|k IH]; intros f file_hash Hlen; [lia|].
  destruct f as [|a f].
  { simpl. by rewrite append_empty_r. }
  destruct (read_shortens a f n Hn) as (chunk & Hc & Hr).
  pose proof (read_splits (String a f) n) as Hs.
  cbn [update_loop]. destruct (read (String a f) n) as [c rest].
  simpl in Hc, Hr, Hs. subst c.
  rewrite IH by (simpl in Hlen; lia).
  by rewrite append_assoc_str, Hs.
Qed.

(** ** The digest of a file *)

Lemma calc_md5_file env nm content h :
  fs env (resolve env (Path_of_str nm)) = File content ->
  calc_md5 env nm h
  = ([FsExists (resolve env (Path_of_str nm));
      FsOpen (resolve env (Path_of_str nm)) "rb"],
     Ok (hexdigest env content)).
Proof.
  intros Hf. unfold calc_md5, path_exists, open_file, py_assert.
  unfold bind, emit, ret. cbn -[update_loop String.length]. rewrite Hf.
  cbn -[update_loop String.length].
  rewrite update_loop_feeds_all by lia. reflexivity.
Qed.

Lemma calc_md5_missing env nm h :
  fs env (resolve env (Path_of_str nm)) = Missing ->
  calc_md5 env nm h
  = ([FsExists (resolve env (Path_of_str nm))], Raise AssertionError).
Proof.
  intros Hf. unfold calc_md5, path_exists, open_file, py_assert.
  unfold bind, emit, ret, raise. simpl. by rewrite Hf.
Qed.

(** ** The loop of [verify_md5s] *)

Lemma reports_app t1 t2 : reports (t1 ++ t2) = reports t1 ++ reports t2.
Proof. apply omap_app. Qed.

Lemma digests_read_app t1 t2 :
  digests_read (t1 ++ t2) = digests_read t1 ++ digests_read t2.
Proof. apply omap_app. Qed.

Lemma paths_probed_app t1 t2 :
  paths_probed (t1 ++ t2) = paths_probed t1 ++ paths_probed t2.
Proof. apply omap_app. Qed.

Lemma verify_step_run env hashes passed rpm h :
  digestible env hashes rpm = true ->
  exists t,
    verify_step env hashes passed rpm h
    = (t, Ok (passed && verified env hashes rpm))
    /\ reports t = [report_of env hashes rpm]
    /\ digests_read t
       = (if in_manifest hashes rpm then [digest_path env rpm] else [])
    /\ paths_probed t = digests_read t.
Proof.
  unfold digestible, verify_step, verified, report_of, in_manifest, computed_md5.
  destruct (hashes !! name rpm) as [expd|] eqn:Hl.
  - destruct (fs env (digest_path env rpm)) as [| |content] eqn:Hf; try done.
    intros _. unfold bind at 1.
    unfold digest_path in Hf. rewrite (calc_md5_file _ _ _ _ Hf).
    rewrite bool_decide_eq_true_2 by eauto.
    destruct (String.eqb (hexdigest env content) expd); simpl;
      eexists; rewrite ?andb_true_r, ?andb_false_r; split_and!; reflexivity.
  - intros _. rewrite bool_decide_eq_false_2 by (intros [? ?]; done).
    eexists. rewrite andb_false_r. split_and!; reflexivity.
Qed.

Lemma verify_loop_run env hashes rpms : forall passed h,
  forallb (digestible env hashes) rpms = true ->
  exists t,
    for_each (verify_step env hashes) rpms passed h
    = (t, Ok (passed && forallb (verified env hashes) rpms))
    /\ reports t = map (report_of env hashes) rpms
    /\ digests_read t
       = map (digest_path env) (List.filter (in_manifest hashes) rpms)
    /\ paths_probed t = digests_read t.
Proof.
  induction rpms as [|rpm rpms IH]; intros passed h Hd.
  { exists []. by rewrite andb_true_r. }
  simpl in Hd. apply andb_true_iff in Hd as [Hd1 Hd2].
  destruct (verify_step_run env hashes passed rpm h Hd1) as (t1 & E1 & R1 & D1 & P1).
  destruct (IH (passed && verified env hashes rpm) (h ++ t1) Hd2)
    as (t2 & E2 & R2 & D2 & P2).
  exists (t1 ++ t2). rewrite for_each_cons, (bind_ok _ _ _ _ _ E1), E2.
  cbn [fst snd forallb]. rewrite andb_assoc. split; [done|].
  rewrite reports_app, digests_read_app, paths_probed_app, R1, R2, D1, D2, P1, P2, D1, D2.
  split_and!; try done.
  simpl. by destruct (in_manifest hashes rpm).
Qed.

(** ** Reading the manifest *)

Lemma read_md5_line_silent hashes line h :
  fst (read_md5_line hashes line h) = [].
Proof.
  unfold read_md5_line, str_getitem, list_getitem, bind, ret, raise.
  repeat (case_match; simplify_eq/=; try done).
Qed.

Lemma read_md5_loop_silent lines : forall hashes h,
  fst (for_each read_md5_line lines hashes h) = [].
Proof.
  induction lines as [|line lines IH]; intros hashes h; [done|].
  rewrite for_each_cons. unfold bind.
  pose proof (read_md5_line_silent hashes line h) as Hs.
  destruct (read_md5_line hashes line h) as [t1 [hashes'|e]]; simpl in Hs; subst t1.
  - specialize (IH hashes' (h ++ [])).
    destruct (for_each read_md5_line lines hashes' (h ++ [])). simpl in *. by subst.
  - done.
Qed.

Lemma read_md5_line_run hashes line h :
  line_ok line = true ->
  read_md5_line hashes line h
  = ([], Ok (if framed line then add_row hashes line else hashes)).
Proof.
  unfold line_ok, framed, read_md5_line, str_getitem, add_row, bind, ret.
  destruct (Py.index line 0) as [a|]; simpl; [|done].
  destruct (Py.char_eqb a "|"); simpl;
    [|by destruct (Py.index line (-2))].
  destruct (Py.index line (-2)) as [b|]; simpl; [|done].
  destruct (Py.char_eqb b "|"); simpl; [|done].
  intros Hlen.
  change (Py.split " " (Py.strip (Py.remove_char "|" line))) with (fields line).
  by destruct (fields line) as [|f0 [|f1 [|f2 row]]].
Qed.

Lemma read_md5_loop_run lines : forall hashes h,
  forallb line_ok lines = true ->
  for_each read_md5_line lines hashes h
  = ([], Ok (fold_left add_row (List.filter framed lines) hashes)).
Proof.
  induction lines as [|line lines IH]; intros hashes h Hok; [done|].
  simpl in Hok. apply andb_true_iff in Hok as [Hl Hok].
  rewrite for_each_cons, (bind_ok _ _ _ _ _ (read_md5_line_run hashes line h Hl)).
  rewrite IH by done. simpl. by destruct (framed line).
Qed.

(** What [read_md5_file] does to the file system, whatever it returns. *)
Lemma read_md5_file_trace env path h :
  trace (read_md5_file env path) h
  = FsExists (resolve env path)
    :: match fs env (resolve env path) with
       | Missing => []
       | _ => [FsOpen (resolve env path) "r"]
       end.
Proof.
  unfold trace, read_md5_file, path_exists, open_file, py_assert.
  unfold bind at 1 2 3 4. unfold emit, ret, raise. cbn [fst snd app].
  destruct (fs env (resolve env path)) as [| |content]; try done.
  cbn [fst snd app].
  pose proof (read_md5_loop_silent (Py.readlines (Py.translate_newlines content)) ∅
                ((h ++ [FsExists (resolve env path)]) ++ [FsOpen (resolve env path) "r"]))
    as Hs.
  unfold bind. cbn.
  match goal with |- context [for_each read_md5_line ?l ?m ?hh] =>
    replace hh with ((h ++ [FsExists (resolve env path)]) ++ [FsOpen (resolve env path) "r"])
      by (by rewrite <- ?app_assoc);
    destruct (for_each read_md5_line l m
                ((h ++ [FsExists (resolve env path)]) ++ [FsOpen (resolve env path) "r"]))
      as [t r]
  end.
  simpl in Hs. subst t. reflexivity.
Qed.

Lemma read_md5_file_missing env path h :
  fs env (resolve env path) = Missing ->
  read_md5_file env path h = ([FsExists (resolve env path)], Raise AssertionError).
Proof.
  intros Hf. unfold read_md5_file, path_exists, py_assert, bind, emit, ret, raise.
  simpl. by rewrite Hf.
Qed.

Lemma read_md5_file_denied env path h :
  fs env (resolve env path) = Denied ->
  read_md5_file env path h
  = ([FsExists (resolve env path); FsOpen (resolve env path) "r"], Raise OSError).
Proof.
  intros Hf.
  unfold read_md5_file, path_exists, open_file, py_assert, bind, emit, ret, raise.
  simpl. by rewrite Hf.
Qed.

Lemma read_md5_file_ok env path h t0 hashes :
  read_md5_file env path h = (t0, Ok hashes) ->
  t0 = [FsExists (resolve env path); FsOpen (resolve env path) "r"].
Proof.
  intros E. pose proof (read_md5_file_trace env path h) as Ht.
  unfold trace in Ht. rewrite E in Ht. simpl in Ht. subst t0.
  destruct (fs env (resolve env path)) eqn:Hf; try done.
  rewrite (read_md5_file_missing _ _ _ Hf) in E. done.
Qed.

(** [verify_md5s] once the manifest is read. *)
Lemma verify_md5s_with_manifest env rpms md5_file h t0 hashes :
  read_md5_file env md5_file h = (t0, Ok hashes) ->
  verify_md5s env rpms md5_file h
  = (t0 ++ Print (MsgFoundSums (size hashes))
        :: fst (for_each (verify_step env hashes) rpms true
                  (h ++ t0 ++ [Print (MsgFoundSums (size hashes))])),
     snd (for_each (verify_step env hashes) rpms true
            (h ++ t0 ++ [Print (MsgFoundSums (size hashes))]))).
Proof.
  intros E. unfold verify_md5s, try_except.
  unfold bind at 1. unfold bind at 1. rewrite E. cbn.
  rewrite app_nil_r. unfold bind. cbn.
  rewrite <- !app_assoc.
  destruct (for_each (verify_step env hashes) rpms true
              (h ++ t0 ++ [Print (MsgFoundSums (size hashes))])).
  reflexivity.
Qed.

(** ** Verification against the manifest *)

Lemma verify_loop_raises env hashes a post expd pre : forall passed h,
  forallb (digestible env hashes) pre = true ->
  hashes !! name a = Some expd ->
  fs env (digest_path env a) = Missing ->
  exists t,
    for_each (verify_step env hashes) (pre ++ a :: post) passed h
    = (t ++ [FsExists (digest_path env a)], Raise AssertionError)
    /\ reports t = map (report_of env hashes) pre
    /\ digests_read t
       = map (digest_path env) (List.filter (in_manifest hashes) pre)
    /\ paths_probed t = digests_read t.
Proof.
  induction pre as [|rpm pre IH]; intros passed h Hd Hl Hf.
  - exists []. split; [|done]. cbn [app]. rewrite for_each_cons.
    apply bind_raise. unfold verify_step. rewrite Hl.
    apply bind_raise. by apply calc_md5_missing.
  - simpl in Hd. apply andb_true_iff in Hd as [Hd1 Hd2].
    destruct (verify_step_run env hashes passed rpm h Hd1)
      as (t1 & E1 & R1 & D1 & P1).
    destruct (IH (passed && verified env hashes rpm) (h ++ t1) Hd2 Hl Hf)
      as (t2 & E2 & R2 & D2 & P2).
    exists (t1 ++ t2). cbn [app]. rewrite for_each_cons, (bind_ok _ _ _ _ _ E1), E2.
    cbn [fst snd]. rewrite app_assoc. split; [done|].
    rewrite reports_app, digests_read_app, paths_probed_app, R1, R2, P1, P2, D1, D2.
    split_and!; try done.
    simpl. by destruct (in_manifest hashes rpm).
Qed.

Lemma split_without_separator c s :
  has_char c s = false -> Py.split c s = [s].
Proof.
  induction s as [|a s IH]; [done|]. cbn [has_char Py.split].
  intros [Ha Hs]%orb_false_iff. rewrite Ha, IH; done.
Qed.

Lemma digest_path_component env rpm :
  is_component (name rpm) = true ->
  digest_path env rpm = cwd env ++ [name rpm].
Proof.
  unfold is_component, digest_path, resolve, Path_of_str.
  intros [[He Hd]%andb_true_iff Hs]%andb_true_iff.
  apply negb_true_iff in Hs, He, Hd.
  rewrite (split_without_separator _ _ Hs).
  apply String.eqb_neq in He, Hd.
  assert (Hp : Py.startswith (name rpm) "/" = false).
  { unfold Py.startswith. destruct (name rpm) as [|a s]; [done|].
    cbn [has_char] in Hs. apply orb_false_iff in Hs as [Ha _].
    unfold Py.char_eqb in Ha.
    change (String.prefix "/" (String a s))
      with (if ascii_dec "/" a then String.prefix "" s else false).
    destruct (ascii_dec "/" a) as [<-|Hne]; [|done].
    by rewrite Ascii.eqb_refl in Ha. }
  rewrite Hp. cbn [absolute parts].
  rewrite filter_cons_True by done. done.
Qed.



Lemma verify_md5s_missing env rpms md5_file h :
  fs env (resolve env md5_file) = Missing ->
  verify_md5s env rpms md5_file h
  = ([FsExists (resolve env md5_file); Print (MsgManifestMissing md5_file)],
     Ok false).
Proof.
  intros Hf. unfold verify_md5s, try_except.
  unfold bind at 1. unfold bind at 1.
  rewrite (read_md5_file_missing _ _ _ Hf). reflexivity.
Qed.

Lemma verify_md5s_denied env rpms md5_file h :
  fs env (resolve env md5_file) = Denied ->
  verify_md5s env rpms md5_file h
  = ([FsExists (resolve env md5_file); FsOpen (resolve env md5_file) "r"],
     Raise OSError).
Proof.
  intros Hf. unfold verify_md5s, try_except.
  unfold bind at 1. unfold bind at 1.
  rewrite (read_md5_file_denied _ _ _ Hf). reflexivity.
Qed.

(** C6 as the code has it: when the manifest cannot be opened no artifact
    is looked at (no per-artifact line, no file opened for a digest).  A
    manifest that does not exist is reported and [verify_md5s] returns
    false at once; a manifest that exists but cannot be opened makes the
    error of [open] leave [verify_md5s], which then returns nothing. *)
Theorem verify_md5s_manifest_unavailable env rpms md5_file h :
  (forall content, fs env (resolve env md5_file) <> File content) ->
  reports (trace (verify_md5s env rpms md5_file) h) = []
  /\ digests_read (trace (verify_md5s env rpms md5_file) h) = []
  /\ (fs env (resolve env md5_file) = Missing ->
      verify_md5s env rpms md5_file h
      = ([FsExists (resolve env md5_file); Print (MsgManifestMissing md5_file)],
         Ok false))
  /\ (fs env (resolve env md5_file) = Denied ->
      outcome (verify_md5s env rpms md5_file) h = Raise OSError).
Proof.
  intros Hno. unfold trace, outcome.
  destruct (fs env (resolve env md5_file)) as [| |content] eqn:Hf.
  - rewrite (verify_md5s_missing _ _ _ _ Hf). by split_and!.
  - rewrite (verify_md5s_denied _ _ _ _ Hf). by split_and!.
  - by destruct (Hno content).
Qed.

(** No manifest in the working directory. *)
Lemma verify_md5s_manifest_unavailable_witness :
  verify_md5s example_env example_rpms (mkPath false ["absent.txt"]) []
  = ([FsExists ["home"; "op"; "absent.txt"];
      Print (MsgManifestMissing (mkPath false ["absent.txt"]))],
     Ok false).
Proof.
  refine (proj1 (proj2 (proj2
    (verify_md5s_manifest_unavailable example_env example_rpms
       (mkPath false ["absent.txt"]) [] _))) _).
  - intros content. vm_compute. discriminate.
  - vm_compute. reflexivity.
Defined.

(** C6 as stated fails: an unreadable manifest does not make
    [verify_md5s] return false. *)
Lemma verify_md5s_unreadable_manifest_raises :
  fs example_env (resolve example_env (mkPath false ["locked"; "md5.txt"]))
  = Denied
  /\ outcome (verify_md5s example_env example_rpms
                (mkPath false ["locked"; "md5.txt"])) []
     <> Ok false.
Proof. split; [reflexivity|]. vm_compute. discriminate. Qed.

(** C10: [verify_md5s] looks for the file of an artifact at its base name
    resolved against the working directory, whatever the artifact's own
    location: when the artifacts before [a] can be verified, [a] is in the
    manifest and nothing exists at that place, the digest computation
    raises [AssertionError] out of [verify_md5s]; nothing is reported for
    [a] and no file is opened for it. *)
Theorem verify_md5s_digest_at_cwd env pre a post md5_file hashes expd h t0 :
  read_md5_file env md5_file h = (t0, Ok hashes) ->
  forallb (digestible env hashes) pre = true ->
  hashes !! name a = Some expd ->
  fs env (digest_path env a) = Missing ->
  outcome (verify_md5s env (pre ++ a :: post) md5_file) h = Raise AssertionError
  /\ reports (trace (verify_md5s env (pre ++ a :: post) md5_file) h)
     = map (report_of env hashes) pre
  /\ paths_probed (trace (verify_md5s env (pre ++ a :: post) md5_file) h)
     = resolve env md5_file
       :: map (digest_path env) (List.filter (in_manifest hashes) pre)
       ++ [digest_path env a]
  /\ digests_read (trace (verify_md5s env (pre ++ a :: post) md5_file) h)
     = map (digest_path env) (List.filter (in_manifest hashes) pre)
  /\ (forall rpm, is_component (name rpm) = true ->
      digest_path env rpm = cwd env ++ [name rpm]).
Proof.
  intros E Hd Hl Hf. unfold outcome, trace.
  rewrite (verify_md5s_with_manifest _ _ _ _ _ _ E).
  destruct (verify_loop_raises env hashes a post expd pre true
              (h ++ t0 ++ [Print (MsgFoundSums (size hashes))]) Hd Hl Hf)
    as (t & El & R & D & P).
  rewrite El. cbn [fst snd].
  rewrite (read_md5_file_ok _ _ _ _ _ E).
  split_and!.
  - reflexivity.
  - cbn. rewrite reports_app, R. cbn. by rewrite app_nil_r.
  - cbn. rewrite paths_probed_app, P, D. reflexivity.
  - cbn. rewrite digests_read_app, D. cbn. by rewrite app_nil_r.
  - intros rpm. apply digest_path_component.
Qed.

(** An artifact found in a subdirectory: its file exists, but not where
    [verify_md5s] looks for it. *)
Lemma verify_md5s_digest_at_cwd_witness :
  fs example_env (parts nested_rpm) = File "module"
  /\ digest_path example_env nested_rpm = ["home"; "op"; "ckct-kmod-1.rpm"]
  /\ outcome (verify_md5s example_env (example_rpms ++ nested_rpm :: [])
                (mkPath false ["md5.txt"])) []
     = Raise AssertionError.
Proof.
  split; [reflexivity|]. split; [reflexivity|].
  refine (proj1
    (verify_md5s_digest_at_cwd example_env example_rpms nested_rpm []
       (mkPath false ["md5.txt"]) (manifest_of example_manifest) "md5-module" []
       [FsExists ["home"; "op"; "md5.txt"];
        FsOpen ["home"; "op"; "md5.txt"] "r"] _ _ _ _));
    vm_compute; reflexivity.
Defined.

(** ** The rows of the manifest *)

Lemma len_nonneg s : 0 <= Py.len s.
Proof. induction s; simpl; lia. Qed.

Lemma len_append (s t : string) : Py.len (s +:+ t) = Py.len s + Py.len t.
Proof.
  induction s; rewrite ?append_cons, ?append_nil; cbn [Py.len]; lia.
Qed.

Lemma nth_char_append (s t : string) :
  Py.nth_char (s +:+ t) (Z.to_nat (Py.len s)) = Py.nth_char t 0.
Proof.
  induction s as [|a s IH]; [done|].
  rewrite append_cons. cbn [Py.len].
  pose proof (len_nonneg s).
  replace (Z.to_nat (1 + Py.len s)) with (S (Z.to_nat (Py.len s))) by lia.
  exact IH.
Qed.

(** In a line that ends with a newline, index [-2] is the character before
    the newline. *)
Lemma index_before_newline (body : string) (c : ascii) :
  Py.index (body +:+ String c newline) (-2) = Some c.
Proof.
  unfold Py.index. rewrite len_append. unfold newline. cbn [Py.len].
  pose proof (len_nonneg body).
  destruct (Z.ltb_spec (-2) 0); [|lia].
  destruct (Z.ltb_spec (-2 + (Py.len body + (1 + (1 + 0)))) 0); [lia|].
  replace (-2 + (Py.len body + (1 + (1 + 0)))) with (Py.len body) by lia.
  by rewrite nth_char_append.
Qed.

Lemma terminated_ends line :
  terminated line = true ->
  line = newline \/ exists body c, line = body +:+ String c newline.
Proof.
  induction line as [|a line IH]; [done|].
  cbn [terminated]. destruct line as [|b line].
  - unfold Py.char_eqb. intros ->%Ascii.eqb_eq. by left.
  - intros Ht. right. destruct (IH Ht) as [E|(body & c & E)].
    + exists EmptyString, a. by rewrite E.
    + exists (String a body), c. by rewrite E.
Qed.

Lemma spec_before_newline_last body c :
  spec_before_newline (body +:+ String c newline) = Some c.
Proof.
  induction body as [|a body IH]; [reflexivity|].
  rewrite append_cons.
  destruct (body +:+ String c newline) as [|b [|b' r]] eqn:E.
  - destruct body; discriminate E.
  - destruct body as [|x [|y body]]; discriminate E.
  - exact IH.
Qed.

Lemma startswith_pipe a (r : string) :
  Py.startswith (String a r) "|" = Py.char_eqb a "|".
Proof.
  unfold Py.startswith, Py.char_eqb.
  change (String.prefix "|" (String a r))
    with (if ascii_dec "|" a then String.prefix "" r else false).
  destruct (ascii_dec "|" a) as [<-|Hne].
  - rewrite Ascii.eqb_refl. by destruct r.
  - symmetry. apply Ascii.eqb_neq. congruence.
Qed.

Lemma index_head a (r : string) : Py.index (String a r) 0 = Some a.
Proof. reflexivity. Qed.

(** On a line that ends with a newline the test of the code is the test of
    the specification, and the line raises no [IndexError] exactly when,
    being kept, it has three fields. *)
Lemma terminated_line line :
  terminated line = true ->
  framed line = spec_framed line /\ line_ok line = row_complete line.
Proof.
  intros Ht. destruct (terminated_ends _ Ht) as [->|(body & c & ->)]; [done|].
  unfold framed, spec_framed, line_ok, row_complete, spec_framed.
  rewrite index_before_newline, spec_before_newline_last.
  destruct body as [|a body].
  - rewrite append_nil, index_head, startswith_pipe.
    destruct (Py.char_eqb c "|"); done.
  - rewrite append_cons, index_head, startswith_pipe.
    destruct (Py.char_eqb a "|"), (Py.char_eqb c "|"); done.
Qed.

Lemma terminated_lines lines :
  forallb terminated lines = true ->
  List.filter framed lines = List.filter spec_framed lines
  /\ forallb line_ok lines = forallb row_complete lines.
Proof.
  induction lines as [|line lines IH]; [done|].
  cbn [forallb List.filter]. intros [Ht Hts]%andb_true_iff.
  destruct (terminated_line _ Ht) as [-> ->].
  destruct (IH Hts) as [-> ->]. done.
Qed.

(** C7 as the code has it, for a manifest whose lines all end with a
    newline and whose kept lines all have three fields: [read_md5_file]
    keeps exactly the lines that start with a pipe and whose character
    before the trailing newline is a pipe, and skips the others without a
    word; a kept line, its pipes removed and trimmed, is cut at every
    single space; field 0 is recorded as the digest of the file named by
    field 2. *)
Theorem read_md5_file_rows env path content h :
  fs env (resolve env path) = File content ->
  forallb terminated (manifest_lines content) = true ->
  forallb row_complete (manifest_lines content) = true ->
  read_md5_file env path h
  = ([FsExists (resolve env path); FsOpen (resolve env path) "r"],
     Ok (fold_left
           (fun hashes line =>
              <[ nth 2 (Py.split " " (Py.strip (Py.remove_char "|" line))) ""
                 := nth 0 (Py.split " " (Py.strip (Py.remove_char "|" line))) "" ]>
                hashes)
           (List.filter spec_framed (manifest_lines content)) ∅))
  /\ (forall line, spec_framed line = true <->
        Py.startswith line "|" = true
        /\ spec_before_newline line = Some "|"%char)
  /\ (forall body c, spec_before_newline (body +:+ String c newline) = Some c)
  /\ (forall line, row_complete line = true <->
        (spec_framed line = true ->
         (3 <= length (Py.split " " (Py.strip (Py.remove_char "|" line))))%nat)).
Proof.
  intros Hf Hterm Hrows.
  destruct (terminated_lines _ Hterm) as [Hkept Hok].
  rewrite Hrows in Hok. split_and!.
  - unfold read_md5_file, path_exists, open_file, py_assert.
    unfold bind, emit, ret. cbn [fst snd app].
    rewrite Hf. cbn [fst snd app].
    fold (manifest_lines content).
    rewrite (read_md5_loop_run _ _ _ Hok), Hkept.
    reflexivity.
  - intros line. unfold spec_framed, Py.char_eqb.
    rewrite andb_true_iff.
    destruct (spec_before_newline line) as [c|].
    + rewrite Ascii.eqb_eq. split; intros [? ?]; split; congruence.
    + split; intros [? ?]; discriminate.
  - apply spec_before_newline_last.
  - intros line. unfold row_complete, fields.
    destruct (spec_framed line); cbn [implb].
    + rewrite Nat.leb_le. split; [by intros ? _ | by intros H; apply H].
    + split; [by intros _ ? | done].
Qed.

(** A manifest of three rows and one line of text. *)
Lemma read_md5_file_rows_witness :
  read_md5_file example_env (mkPath false ["md5.txt"]) []
  = ([FsExists ["home"; "op"; "md5.txt"]; FsOpen ["home"; "op"; "md5.txt"] "r"],
     Ok (<["ckct-kmod-1.rpm" := "md5-module"]>
           (<["ckct-logger-1.rpm" := "md5-logger"]>
              (<["ckct-tools-1.rpm" := "md5-payload"]> ∅)))).
Proof.
  refine (eq_trans (proj1
    (read_md5_file_rows example_env (mkPath false ["md5.txt"])
       example_manifest [] _ _ _)) _); vm_compute; reflexivity.
Defined.

(** C7 as stated fails: on the record of the first end-to-end scenario,
    cutting at every space gives empty fields, so the code files the
    digest under the field [-], while fields between runs of whitespace
    would file it under the file name. *)
Lemma read_md5_file_not_whitespace_split :
  outcome (read_md5_file example_env (mkPath false ["release"; "md5.txt"])) []
  = Ok (<["-" := "0123456789abcdef0123456789abcdef"]> ∅)
  /\ spec_manifest_of scenario_manifest
     = <["pkg-a.rpm" := "0123456789abcdef0123456789abcdef"]> ∅
  /\ outcome (read_md5_file example_env (mkPath false ["release"; "md5.txt"])) []
     <> Ok (spec_manifest_of scenario_manifest).
Proof.
  split_and!; [vm_compute; reflexivity | vm_compute; reflexivity |].
  intros H. apply (f_equal (fun r => match r with
                                     | Ok m => m !! "pkg-a.rpm"
                                     | Raise _ => None
                                     end)) in H.
  vm_compute in H. discriminate.
Qed.

(** ** Remote commands *)

Lemma ops_app t1 t2 : ops (t1 ++ t2) = ops t1 ++ ops t2.
Proof. apply omap_app. Qed.

Lemma remote_privileged_command_run env ssh command remote_password h :
  exists code out err,
    remote_privileged_command env ssh command remote_password h
    = ([Print (MsgRunning ("sudo -S -p '' " +:+ command));
        ExecCommand ("sudo -S -p '' " +:+ command);
        StdinWrite ("sudo -S -p '' " +:+ command) (remote_password +:+ newline);
        StdinFlush ("sudo -S -p '' " +:+ command);
        RecvExitStatus ("sudo -S -p '' " +:+ command) code;
        ReadLines ("sudo -S -p '' " +:+ command) Stdout;
        Print (MsgOutput out);
        ReadLines ("sudo -S -p '' " +:+ command) Stderr;
        Print (MsgErrorStream err);
        Print (MsgExitCode code)],
       Ok (code =? 0)).
Proof. do 3 eexists. reflexivity. Qed.

Lemma remote_command_run env ssh command h :
  exists code out err,
    remote_command env ssh command h
    = ([Print (MsgRunning command);
        ExecCommand command;
        RecvExitStatus command code;
        ReadLines command Stdout;
        Print (MsgOutput out);
        ReadLines command Stderr;
        Print (MsgErrorStream err);
        Print (MsgExitCode code)],
       Ok (code =? 0)).
Proof. do 3 eexists. reflexivity. Qed.

Lemma scp_files_run env scp local_files remote_path h :
  exists perr,
    scp_files env scp local_files remote_path h
    = ([Print (MsgSending local_files); ScpPut local_files remote_path true]
       ++ match perr with
          | None => [Print MsgSent]
          | Some e => [Print (MsgSendError e)]
          end,
       Ok (if perr is None then true else false)).
Proof.
  exists (put_error env ((h ++ [Print (MsgSending local_files)])
                           ++ [ScpPut local_files remote_path true])).
  unfold scp_files, print, bind, emit, ask, ret. cbn.
  by destruct (put_error env _).
Qed.

Lemma check_fail_run res h :
  exists r, _check_fail res h
            = ((if res then [] else [Print MsgPartialInstall]), Ok r).
Proof. destruct res; eexists; reflexivity. Qed.

Lemma install_step_run env ssh remote_password remote h :
  exists code t,
    install_step env ssh remote_password tt remote h = (t, Ok tt)
    /\ ops t
       = [Exec ("sudo -S -p '' yum -y install " +:+ remote);
          Ran ("sudo -S -p '' yum -y install " +:+ remote) code]
         ++ notice (code =? 0).
Proof.
  unfold install_step, yum_install_remote.
  set (h1 := h ++ [Print (MsgInstalling remote)]).
  destruct (remote_privileged_command_run env ssh
              ("yum -y install " +:+ remote) remote_password h1)
    as (code & out & err & E).
  exists code.
  unfold bind at 1. unfold print at 1, emit at 1. fold h1.
  unfold bind at 1. rewrite E.
  destruct (code =? 0); eexists; split; reflexivity.
Qed.

Lemma install_loop_run env ssh remote_password rpms : forall h,
  exists cs t,
    for_each (install_step env ssh remote_password)
      (map (fun x => upload_dir env +:+ "/" +:+ name x) rpms) tt h
    = (t, Ok tt)
    /\ length cs = length rpms
    /\ ops t = flat_map (install_ops env) (zip rpms cs).
Proof.
  induction rpms as [|rpm rpms IH]; intros h.
  { exists [], []. done. }
  destruct (install_step_run env ssh remote_password
              (upload_dir env +:+ "/" +:+ name rpm) h) as (c & t1 & E1 & O1).
  destruct (IH (h ++ t1)) as (cs & t2 & E2 & Hlen & O2).
  exists (c :: cs), (t1 ++ t2).
  cbn [map]. rewrite for_each_cons, (bind_ok _ _ _ _ _ E1), E2.
  split_and!; [done | by simpl; rewrite Hlen |].
  rewrite ops_app, O1, O2. reflexivity.
Qed.

(** The remote operations of a whole run of [install_remote]. *)
Lemma install_remote_run env rpms remote_ip remote_username remote_password h :
  connect_error env (h ++ [Connect remote_ip remote_username remote_password 10])
  = false ->
  exists c0 perr cs t,
    install_remote env rpms remote_ip remote_username remote_password h
    = (t, Ok true)
    /\ length cs = length rpms
    /\ ops t
       = [Exec (mkdir_command env); Ran (mkdir_command env) c0]
         ++ notice (c0 =? 0)
         ++ [Put rpms (upload_dir env)]
         ++ match perr with
            | None => []
            | Some e => [PutFailed e; Notice]
            end
         ++ flat_map (install_ops env) (zip rpms cs).
Proof.
  intros Hc.
  set (e_conn := Connect remote_ip remote_username remote_password 10).
  assert (Econn : remote_connect env remote_ip remote_username remote_password h
                  = ([e_conn], Ok (tt, tt))).
  { unfold remote_connect, bind, emit, ask, ret, raise, e_conn. cbn.
    by rewrite Hc. }
  set (h1 := h ++ [e_conn]).
  set (e_up := Print (MsgUploading (length rpms) (upload_dir env))).
  set (h2 := h1 ++ [e_up]).
  destruct (remote_command_run env tt ("mkdir -p " +:+ upload_dir env) h2)
    as (c0 & out & err & E2).
  match type of E2 with _ = (?t, _) => set (t2 := t) in * end.
  destruct (check_fail_run (c0 =? 0) (h2 ++ t2)) as (r3 & E3).
  set (t3 := if c0 =? 0 then [] else [Print MsgPartialInstall]) in *.
  destruct (scp_files_run env tt rpms (upload_dir env) ((h2 ++ t2) ++ t3))
    as (perr & E4).
  match type of E4 with _ = (?t, Ok ?b) =>
    set (t4 := t) in *; set (b4 := b) in * end.
  destruct (check_fail_run b4 (((h2 ++ t2) ++ t3) ++ t4)) as (r5 & E5).
  set (t5 := if b4 then [] else [Print MsgPartialInstall]) in *.
  destruct (install_loop_run env tt remote_password rpms
              ((((h2 ++ t2) ++ t3) ++ t4) ++ t5))
    as (cs & t6 & E6 & Hlen & O6).
  exists c0, perr, cs. eexists. split_and!; [|exact Hlen|].
  - unfold install_remote.
    eapply bind_run; [exact Econn|]. cbv beta iota.
    eapply bind_run; [reflexivity|].
    eapply bind_run; [exact E2|].
    eapply bind_run; [exact E3|].
    eapply bind_run; [exact E4|].
    eapply bind_run; [exact E5|].
    eapply bind_run; [exact E6|].
    eapply bind_run; [reflexivity|].
    reflexivity.
  - rewrite !ops_app, O6.
    subst t2 t3 t4 t5 b4. unfold mkdir_command.
    destruct (c0 =? 0), perr; cbn; by rewrite ?app_nil_r.
Qed.

(** ** The run of [install_remote] *)

Lemma commands_app o1 o2 : commands (o1 ++ o2) = commands o1 ++ commands o2.
Proof. apply omap_app. Qed.

Lemma install_results_app o1 o2 :
  install_results (o1 ++ o2) = install_results o1 ++ install_results o2.
Proof. apply omap_app. Qed.

Lemma prefix_append (s t : string) : String.prefix s (s +:+ t) = true.
Proof.
  induction s as [|a s IH]; [by destruct t|].
  rewrite append_cons.
  change (String.prefix (String a s) (String a (s +:+ t)))
    with (if ascii_dec a a then String.prefix s (s +:+ t) else false).
  by destruct (ascii_dec a a).
Qed.

Lemma install_command_privileged env rpm :
  Py.startswith (install_command env rpm) "sudo -S -p '' yum -y install " = true.
Proof. unfold Py.startswith, install_command. apply prefix_append. Qed.

Lemma notice_commands ok : commands (notice ok) = [].
Proof. by destruct ok. Qed.

Lemma notice_results ok : install_results (notice ok) = [].
Proof. by destruct ok. Qed.

Lemma install_ops_commands env l :
  commands (flat_map (install_ops env) l)
  = map (fun rc => install_command env rc.1) l.
Proof.
  induction l as [|rc l IH]; [done|].
  cbn [flat_map map]. rewrite commands_app, IH. unfold install_ops.
  rewrite commands_app, notice_commands. reflexivity.
Qed.

Lemma install_ops_results env l :
  install_results (flat_map (install_ops env) l)
  = map (fun rc => (install_command env rc.1, rc.2)) l.
Proof.
  induction l as [|rc l IH]; [done|].
  cbn [flat_map map]. rewrite install_results_app, IH. unfold install_ops.
  rewrite install_results_app, notice_results.
  cbv [install_results omap list_omap]. by rewrite install_command_privileged.
Qed.

Lemma map_fst_zip {A B C} (f : A -> C) (l : list A) (k : list B) :
  length k = length l -> map (fun p => f p.1) (zip l k) = map f l.
Proof.
  revert k. induction l as [|x l IH]; intros [|y k] Hlen; simpl in *; try done.
  f_equal. apply IH. lia.
Qed.

Lemma in_ops (t : list event) (e : event) (o : op) :
  op_of e = Some o -> In e t -> In o (ops t).
Proof.
  intros Ho Hin. apply list_elem_of_In. apply list_elem_of_In in Hin.
  unfold ops. apply list_elem_of_omap. eauto.
Qed.

Lemma install_ops_elements env l o :
  In o (flat_map (install_ops env) l) ->
  o = Notice \/ exists rpm, o = Exec (install_command env rpm)
                            \/ exists code, o = Ran (install_command env rpm) code.
Proof.
  rewrite in_flat_map. intros ([rpm code] & _ & Hin). unfold install_ops in Hin.
  cbn in Hin. destruct Hin as [<-|[<-|Hin]]; [right; eauto..|].
  destruct (code =? 0); cbn in Hin; [done|]. destruct Hin as [<-|[]]. by left.
Qed.

(** The operations of a run, as [install_remote_run] gives them. *)
Lemma run_shape_commands env rpms c0 perr cs :
  length cs = length rpms ->
  commands ([Exec (mkdir_command env); Ran (mkdir_command env) c0]
            ++ notice (c0 =? 0)
            ++ [Put rpms (upload_dir env)]
            ++ match perr with
               | None => []
               | Some e => [PutFailed e; Notice]
               end
            ++ flat_map (install_ops env) (zip rpms cs))
  = mkdir_command env :: map (install_command env) rpms.
Proof.
  intros Hlen. rewrite !commands_app, notice_commands, install_ops_commands.
  rewrite (map_fst_zip (install_command env)) by done.
  by destruct perr.
Qed.

Lemma run_shape_results env rpms c0 perr cs :
  install_results ([Exec (mkdir_command env); Ran (mkdir_command env) c0]
                   ++ notice (c0 =? 0)
                   ++ [Put rpms (upload_dir env)]
                   ++ match perr with
                      | None => []
                      | Some e => [PutFailed e; Notice]
                      end
                   ++ flat_map (install_ops env) (zip rpms cs))
  = map (fun rc => (install_command env rc.1, rc.2)) (zip rpms cs).
Proof.
  rewrite !install_results_app, notice_results, install_ops_results.
  by destruct perr.
Qed.

(** C1 as the code has it: once the session is established every artifact
    of the list is installed in upload order whatever the earlier installs
    returned, each failed install being followed by the notice; the value
    [install_remote] returns is [True] whatever the exit statuses are. *)
Theorem install_remote_sweep env rpms remote_ip remote_username remote_password h :
  connect_error env (h ++ [Connect remote_ip remote_username remote_password 10])
  = false ->
  exists pre cs,
    length cs = length rpms
    /\ ops (trace (install_remote env rpms remote_ip remote_username
                     remote_password) h)
       = pre ++ flat_map (install_ops env) (zip rpms cs)
    /\ commands pre = [mkdir_command env]
    /\ commands (ops (trace (install_remote env rpms remote_ip remote_username
                               remote_password) h))
       = mkdir_command env :: map (install_command env) rpms
    /\ install_results
         (ops (trace (install_remote env rpms remote_ip remote_username
                        remote_password) h))
       = map (fun rc => (install_command env rc.1, rc.2)) (zip rpms cs)
    /\ outcome (install_remote env rpms remote_ip remote_username
                  remote_password) h
       = Ok true.
Proof.
  intros Hc.
  destruct (install_remote_run env rpms remote_ip remote_username
              remote_password h Hc) as (c0 & perr & cs & t & E & Hlen & O).
  unfold trace, outcome. rewrite E. cbn [fst snd].
  exists ([Exec (mkdir_command env); Ran (mkdir_command env) c0]
          ++ notice (c0 =? 0) ++ [Put rpms (upload_dir env)]
          ++ match perr with None => [] | Some e => [PutFailed e; Notice] end),
         cs.
  assert (Hpre_c : commands
            ([Exec (mkdir_command env); Ran (mkdir_command env) c0]
             ++ notice (c0 =? 0) ++ [Put rpms (upload_dir env)]
             ++ match perr with None => [] | Some e => [PutFailed e; Notice] end)
          = [mkdir_command env]).
  { destruct (c0 =? 0), perr; reflexivity. }
  split_and!; try done.
  - rewrite O. by rewrite <- !app_assoc.
  - rewrite O. by apply run_shape_commands.
  - rewrite O. by apply run_shape_results.
Qed.

(** The third end-to-end scenario: all three installs are sent. *)
Lemma install_remote_sweep_witness :
  commands (ops (trace (install_remote scenario_env scenario_rpms
                          "192.168.6.6" "admin" "secret") []))
  = [ "mkdir -p installtool-20240101";
      "sudo -S -p '' yum -y install installtool-20240101/pkgA.rpm";
      "sudo -S -p '' yum -y install installtool-20240101/pkgB.rpm";
      "sudo -S -p '' yum -y install installtool-20240101/pkgC.rpm" ].
Proof.
  destruct (install_remote_sweep scenario_env scenario_rpms
              "192.168.6.6" "admin" "secret" [] eq_refl)
    as (pre & cs & _ & _ & _ & Hcmd & _).
  exact Hcmd.
Defined.

(** C1 as stated fails: in the third end-to-end scenario two installs end
    with a nonzero exit status and [install_remote] still returns [True],
    which is not the conjunction of the three outcomes. *)
Lemma install_remote_ignores_failures :
  install_results
    (ops (trace (install_remote scenario_env scenario_rpms
                   "192.168.6.6" "admin" "secret") []))
  = [ ("sudo -S -p '' yum -y install installtool-20240101/pkgA.rpm", 0);
      ("sudo -S -p '' yum -y install installtool-20240101/pkgB.rpm", 1);
      ("sudo -S -p '' yum -y install installtool-20240101/pkgC.rpm", 1) ]
  /\ outcome (install_remote scenario_env scenario_rpms
                "192.168.6.6" "admin" "secret") []
     = Ok true
  /\ outcome (install_remote scenario_env scenario_rpms
                "192.168.6.6" "admin" "secret") []
     <> Ok (forallb (fun rc => rc.2 =? 0)
              (install_results
                 (ops (trace (install_remote scenario_env scenario_rpms
                                "192.168.6.6" "admin" "secret") [])))).
Proof.
  split_and!; [vm_compute; reflexivity | vm_compute; reflexivity |].
  vm_compute. discriminate.
Qed.

(** C2 as the code has it: when the upload fails the failure is reported
    and followed by the notice, and the install phase runs all the same:
    the install command of every artifact is sent, in order. *)
Theorem install_remote_upload_failure env rpms remote_ip remote_username
    remote_password h e :
  connect_error env (h ++ [Connect remote_ip remote_username remote_password 10])
  = false ->
  In (Print (MsgSendError e))
     (trace (install_remote env rpms remote_ip remote_username remote_password) h) ->
  exists c0 cs,
    length cs = length rpms
    /\ ops (trace (install_remote env rpms remote_ip remote_username
                     remote_password) h)
       = [Exec (mkdir_command env); Ran (mkdir_command env) c0]
         ++ notice (c0 =? 0)
         ++ [Put rpms (upload_dir env); PutFailed e; Notice]
         ++ flat_map (install_ops env) (zip rpms cs)
    /\ commands (ops (trace (install_remote env rpms remote_ip remote_username
                               remote_password) h))
       = mkdir_command env :: map (install_command env) rpms.
Proof.
  intros Hc Hin.
  destruct (install_remote_run env rpms remote_ip remote_username
              remote_password h Hc) as (c0 & perr & cs & t & E & Hlen & O).
  unfold trace in *. rewrite E in *. cbn [fst] in *.
  apply (in_ops _ (Print (MsgSendError e)) (PutFailed e) eq_refl) in Hin.
  rewrite O in Hin.
  exists c0, cs. split; [done|].
  split; [|rewrite O; by apply run_shape_commands].
  rewrite O. rewrite !in_app_iff in Hin.
  destruct Hin as [Hin|[Hin|[Hin|[Hin|Hin]]]].
  - cbn in Hin. by destruct Hin as [|[|]].
  - destruct (c0 =? 0); cbn in Hin; [done|]. by destruct Hin.
  - cbn in Hin. by destruct Hin.
  - destruct perr as [e'|]; cbn in Hin; [|done].
    destruct Hin as [Heq|[|]]; try done. by injection Heq as ->.
  - apply install_ops_elements in Hin as [|(rpm & [|(code & ?)])]; done.
Qed.

(** A broken upload, followed by the three installs. *)
Lemma install_remote_upload_failure_witness :
  commands (ops (trace (install_remote failing_env scenario_rpms
                          "192.168.6.6" "admin" "secret") []))
  = mkdir_command failing_env :: map (install_command failing_env) scenario_rpms.
Proof.
  destruct (install_remote_upload_failure failing_env scenario_rpms
              "192.168.6.6" "admin" "secret" [] "lost connection" eq_refl)
    as (c0 & cs & _ & _ & Hcmd).
  - vm_compute. tauto.
  - exact Hcmd.
Defined.

(** C2 as stated fails: the upload breaks and the privileged install
    commands are sent all the same. *)
Lemma install_remote_installs_after_failed_upload :
  In (Print (MsgSendError "lost connection"))
     (trace (install_remote failing_env scenario_rpms
               "192.168.6.6" "admin" "secret") [])
  /\ In (ExecCommand "sudo -S -p '' yum -y install installtool-20240101/pkgA.rpm")
        (trace (install_remote failing_env scenario_rpms
                  "192.168.6.6" "admin" "secret") []).
Proof. split; vm_compute; tauto. Qed.

(** C8: when the session is established and the command that makes the
    staging directory ends with a nonzero exit status, the notice is
    printed and the upload of the artifacts of the host is attempted all
    the same. *)
Theorem install_remote_mkdir_soft_fail env rpms remote_ip remote_username
    remote_password h code :
  connect_error env (h ++ [Connect remote_ip remote_username remote_password 10])
  = false ->
  In (RecvExitStatus (mkdir_command env) code)
     (trace (install_remote env rpms remote_ip remote_username remote_password) h) ->
  code <> 0 ->
  exists rest,
    ops (trace (install_remote env rpms remote_ip remote_username
                  remote_password) h)
    = [Exec (mkdir_command env); Ran (mkdir_command env) code; Notice;
       Put rpms (upload_dir env)] ++ rest.
Proof.
  intros Hc Hin Hne.
  destruct (install_remote_run env rpms remote_ip remote_username
              remote_password h Hc) as (c0 & perr & cs & t & E & Hlen & O).
  unfold trace in *. rewrite E in *. cbn [fst] in *.
  apply (in_ops _ (RecvExitStatus (mkdir_command env) code)
           (Ran (mkdir_command env) code) eq_refl) in Hin.
  rewrite O in Hin. rewrite O.
  assert (c0 = code) as ->.
  { rewrite !in_app_iff in Hin.
    destruct Hin as [Hin|[Hin|[Hin|[Hin|Hin]]]].
    - cbn in Hin. destruct Hin as [|[Heq|]]; try done. by injection Heq.
    - destruct (c0 =? 0); cbn in Hin; [done|]. by destruct Hin.
    - cbn in Hin. by destruct Hin.
    - destruct perr; cbn in Hin; [|done]. by destruct Hin as [|[|]].
    - apply install_ops_elements in Hin as [|(rpm & [|(code' & Heq)])];
        done. }
  destruct (Z.eqb_spec code 0); [done|]. eexists. reflexivity.
Qed.

(** The staging directory cannot be made; the upload follows. *)
Lemma install_remote_mkdir_soft_fail_witness :
  exists rest,
    ops (trace (install_remote failing_env scenario_rpms
                  "192.168.6.6" "admin" "secret") [])
    = [Exec "mkdir -p installtool-20240101";
       Ran "mkdir -p installtool-20240101" 1; Notice;
       Put scenario_rpms "installtool-20240101"] ++ rest.
Proof.
  refine (install_remote_mkdir_soft_fail failing_env scenario_rpms
            "192.168.6.6" "admin" "secret" [] 1 eq_refl _ _).
  - vm_compute. tauto.
  - discriminate.
Defined.

(** C9 as the code has it: [remote_privileged_command] sends the command
    behind [sudo -S -p ''], which reads the password from standard input;
    right after the command is sent the password and a newline are written
    to the standard input of its channel and the stream is flushed; the
    function then waits for the exit status.  It sends one command and
    writes the password once, to that channel.  It does not close the
    stream nor shut the channel down for writing. *)
Theorem remote_privileged_command_trace env ssh command remote_password h :
  exists code out err,
    remote_privileged_command env ssh command remote_password h
    = ([Print (MsgRunning ("sudo -S -p '' " +:+ command));
        ExecCommand ("sudo -S -p '' " +:+ command);
        StdinWrite ("sudo -S -p '' " +:+ command) (remote_password +:+ newline);
        StdinFlush ("sudo -S -p '' " +:+ command);
        RecvExitStatus ("sudo -S -p '' " +:+ command) code;
        ReadLines ("sudo -S -p '' " +:+ command) Stdout;
        Print (MsgOutput out);
        ReadLines ("sudo -S -p '' " +:+ command) Stderr;
        Print (MsgErrorStream err);
        Print (MsgExitCode code)],
       Ok (code =? 0))
    /\ (forall ch,
        ~ In (StdinClose ch)
             (trace (remote_privileged_command env ssh command remote_password) h)
        /\ ~ In (ShutdownWrite ch)
                (trace (remote_privileged_command env ssh command
                          remote_password) h)).
Proof.
  destruct (remote_privileged_command_run env ssh command remote_password h)
    as (code & out & err & E).
  exists code, out, err. split; [exact E|].
  intros ch. unfold trace. rewrite E. cbn [fst].
  split; intros Hin; cbn in Hin;
    repeat (destruct Hin as [Hin|Hin]; [discriminate|]); done.
Qed.

(** C9 as stated fails: the standard input of the channel is written and
    flushed but never closed for writing. *)
Lemma remote_privileged_command_leaves_stdin_open :
  trace (remote_privileged_command example_env tt "yum -y install x.rpm" "secret") []
  = [Print (MsgRunning "sudo -S -p '' yum -y install x.rpm");
     ExecCommand "sudo -S -p '' yum -y install x.rpm";
     StdinWrite "sudo -S -p '' yum -y install x.rpm" ("secret" +:+ newline);
     StdinFlush "sudo -S -p '' yum -y install x.rpm";
     RecvExitStatus "sudo -S -p '' yum -y install x.rpm" 0;
     ReadLines "sudo -S -p '' yum -y install x.rpm" Stdout;
     Print (MsgOutput []);
     ReadLines "sudo -S -p '' yum -y install x.rpm" Stderr;
     Print (MsgErrorStream []);
     Print (MsgExitCode 0)]
  /\ ~ In (StdinClose "sudo -S -p '' yum -y install x.rpm")
          (trace (remote_privileged_command example_env tt
                    "yum -y install x.rpm" "secret") [])
  /\ ~ In (ShutdownWrite "sudo -S -p '' yum -y install x.rpm")
          (trace (remote_privileged_command example_env tt
                    "yum -y install x.rpm" "secret") []).
Proof.
  split_and!; [vm_compute; reflexivity | |];
    vm_compute; intros Hin;
    repeat (destruct Hin as [Hin|Hin]; [discriminate|]); done.
Qed.

(** * More properties of the code *)

(** ** Digests *)

(** X1: [calc_md5] of a readable file opens it once for binary reading and
    returns the digest of its whole content: reading by chunks loses
    nothing, whatever the positive chunk size and the length of the
    file. *)
Theorem calc_md5_whole_content env nm content h :
  fs env (resolve env (Path_of_str nm)) = File content ->
  calc_md5 env nm h
  = ([FsExists (resolve env (Path_of_str nm));
      FsOpen (resolve env (Path_of_str nm)) "rb"],
     Ok (hexdigest env content))
  /\ (forall n, 0 < n ->
      update_loop (S (String.length content)) n content EmptyString = content).
Proof.
  intros Hf. split; [by apply calc_md5_file|].
  intros n Hn. by rewrite update_loop_feeds_all by lia.
Qed.

(** In the example world [ckct-tools-1.rpm] is in the working directory. *)
Lemma calc_md5_whole_content_witness :
  outcome (calc_md5 example_env "ckct-tools-1.rpm") [] = Ok "md5-payload".
Proof.
  exact (f_equal snd
           (proj1 (calc_md5_whole_content example_env "ckct-tools-1.rpm"
                     "payload" [] eq_refl))).
Defined.

(** X2: [calc_md5] never returns a digest for what is not a readable file:
    for a path where nothing exists it raises [AssertionError] without
    opening anything; for a path that exists but cannot be opened it
    raises the [OSError] of [open]. *)
Theorem calc_md5_unavailable env nm h :
  (forall content, fs env (resolve env (Path_of_str nm)) <> File content) ->
  (exists e, outcome (calc_md5 env nm) h = Raise e)
  /\ (fs env (resolve env (Path_of_str nm)) = Missing ->
      calc_md5 env nm h
      = ([FsExists (resolve env (Path_of_str nm))], Raise AssertionError))
  /\ (fs env (resolve env (Path_of_str nm)) = Denied ->
      calc_md5 env nm h
      = ([FsExists (resolve env (Path_of_str nm));
          FsOpen (resolve env (Path_of_str nm)) "rb"], Raise OSError)).
Proof.
  intros Hno.
  assert (Hd : fs env (resolve env (Path_of_str nm)) = Denied ->
               calc_md5 env nm h
               = ([FsExists (resolve env (Path_of_str nm));
                   FsOpen (resolve env (Path_of_str nm)) "rb"], Raise OSError)).
  { intros Hf. unfold calc_md5, path_exists, open_file, py_assert.
    unfold bind, emit, ret, raise. cbn -[update_loop String.length].
    by rewrite Hf. }
  split_and!; [|apply calc_md5_missing|exact Hd].
  unfold outcome.
  destruct (fs env (resolve env (Path_of_str nm))) as [| |content] eqn:Hf.
  - rewrite (calc_md5_missing _ _ _ Hf). eauto.
  - rewrite (Hd eq_refl). eauto.
  - by destruct (Hno content).
Qed.

(** In the example world nothing is called [absent.rpm]. *)
Lemma calc_md5_unavailable_witness :
  calc_md5 example_env "absent.rpm" []
  = ([FsExists ["home"; "op"; "absent.rpm"]], Raise AssertionError).
Proof.
  refine (proj1 (proj2
    (calc_md5_unavailable example_env "absent.rpm" [] _)) eq_refl).
  intros content. vm_compute. discriminate.
Defined.

(** ** Manifests *)

Lemma read_md5_line_index_error hashes line h :
  line_ok line = false ->
  read_md5_line hashes line h = ([], Raise IndexError).
Proof.
  unfold line_ok, read_md5_line, str_getitem, bind, ret, raise.
  destruct (Py.index line 0) as [a|]; simpl; [|done].
  destruct (Py.char_eqb a "|"); simpl; [|done].
  destruct (Py.index line (-2)) as [b|]; simpl; [|done].
  destruct (Py.char_eqb b "|"); simpl; [|done].
  intros Hlen.
  change (Py.split " " (Py.strip (Py.remove_char "|" line))) with (fields line).
  by destruct (fields line) as [|f0 [|f1 [|f2 row]]].
Qed.

Lemma read_md5_loop_index_error lines : forall hashes h,
  forallb line_ok lines = false ->
  for_each read_md5_line lines hashes h = ([], Raise IndexError).
Proof.
  induction lines as [|line lines IH]; intros hashes h Hbad; [done|].
  simpl in Hbad. rewrite for_each_cons.
  destruct (line_ok line) eqn:Hl.
  - rewrite (bind_ok _ _ _ _ _ (read_md5_line_run hashes line h Hl)).
    by rewrite IH.
  - apply bind_raise. by apply read_md5_line_index_error.
Qed.

Lemma read_md5_file_readable env path content h :
  fs env (resolve env path) = File content ->
  read_md5_file env path h
  = ([FsExists (resolve env path); FsOpen (resolve env path) "r"],
     snd (for_each read_md5_line (manifest_lines content) ∅
            ((h ++ [FsExists (resolve env path)])
               ++ [FsOpen (resolve env path) "r"]))).
Proof.
  intros Hf. unfold read_md5_file, path_exists, open_file, py_assert.
  unfold bind, emit, ret. cbn [fst snd app]. rewrite Hf. cbn [fst snd app].
  fold (manifest_lines content). rewrite app_nil_r.
  pose proof (read_md5_loop_silent (manifest_lines content) ∅
                ((h ++ [FsExists (resolve env path)])
                   ++ [FsOpen (resolve env path) "r"])) as Hs.
  destruct (for_each read_md5_line (manifest_lines content) ∅ _) as [t r].
  simpl in Hs. by subst t.
Qed.

(** X3: on a readable manifest [read_md5_file] raises [IndexError] exactly
    when some line starts with a pipe and has no second character, or is
    framed by pipes and has fewer than three fields; [verify_md5s] does
    not catch it: the error leaves [verify_md5s] before any artifact is
    looked at. *)
Theorem read_md5_file_index_error env rpms path content h :
  fs env (resolve env path) = File content ->
  (outcome (read_md5_file env path) h = Raise IndexError
   <-> forallb line_ok (manifest_lines content) = false)
  /\ (forallb line_ok (manifest_lines content) = false ->
      verify_md5s env rpms path h
      = ([FsExists (resolve env path); FsOpen (resolve env path) "r"],
         Raise IndexError))
  /\ (forall line, framed line = true ->
      (length (fields line) < 3)%nat -> line_ok line = false).
Proof.
  intros Hf. unfold outcome. rewrite (read_md5_file_readable _ _ _ _ Hf).
  cbn [snd]. split_and!.
  - destruct (forallb line_ok (manifest_lines content)) eqn:Hok.
    + rewrite (read_md5_loop_run _ _ _ Hok). split; discriminate.
    + by rewrite (read_md5_loop_index_error _ _ _ Hok).
  - intros Hbad. unfold verify_md5s, try_except.
    unfold bind at 1. unfold bind at 1.
    rewrite (read_md5_file_readable _ _ _ _ Hf).
    by rewrite (read_md5_loop_index_error _ _ _ Hbad).
  - intros line. unfold framed, line_ok.
    destruct (Py.index line 0) as [a|]; [|done].
    destruct (Py.index line (-2)) as [b|]; [|done].
    intros [-> ->]%andb_true_iff Hlen.
    apply Nat.leb_gt. lia.
Qed.

(** A framed line of two fields. *)
Lemma read_md5_file_index_error_witness :
  outcome (verify_md5s (manifest_env ("| d41d8 pkg.rpm |" +:+ newline))
             example_rpms (mkPath false ["md5.txt"])) []
  = Raise IndexError.
Proof.
  refine (f_equal snd (proj1 (proj2
    (read_md5_file_index_error
       (manifest_env ("| d41d8 pkg.rpm |" +:+ newline))
       example_rpms (mkPath false ["md5.txt"])
       ("| d41d8 pkg.rpm |" +:+ newline) [] eq_refl)) _)).
  vm_compute. reflexivity.
Defined.

Lemma fold_add_row_lookup lines : forall hashes k,
  fold_left add_row lines hashes !! k
  = match last (List.filter (fun l => bool_decide (filename_of l = k)) lines) with
    | Some l => Some (digest_of l)
    | None => hashes !! k
    end.
Proof.
  induction lines as [|line lines IH] using rev_ind; intros hashes k; [done|].
  rewrite fold_left_app, List.filter_app. cbn [fold_left List.filter].
  unfold add_row at 1. fold (filename_of line) (digest_of line).
  destruct (decide (filename_of line = k)) as [Hk|Hk].
  - rewrite bool_decide_eq_true_2 by done. rewrite last_snoc.
    subst k. by rewrite lookup_insert_eq.
  - rewrite bool_decide_eq_false_2 by done. rewrite app_nil_r.
    rewrite lookup_insert_ne by done. apply IH.
Qed.

(** X4: in the mapping [read_md5_file] returns, a file name is bound to the
    digest of the last framed line that names it (a later row replaces an
    earlier one), and a name no framed line gives is absent. *)
Theorem read_md5_file_last_row_wins env path content h :
  fs env (resolve env path) = File content ->
  forallb line_ok (manifest_lines content) = true ->
  exists hashes,
    outcome (read_md5_file env path) h = Ok hashes
    /\ forall k,
         hashes !! k
         = digest_of
             <$> last (List.filter (fun l => bool_decide (filename_of l = k))
                         (List.filter framed (manifest_lines content))).
Proof.
  intros Hf Hok. eexists. unfold outcome.
  rewrite (read_md5_file_readable _ _ _ _ Hf), (read_md5_loop_run _ _ _ Hok).
  split; [reflexivity|]. intros k. rewrite fold_add_row_lookup.
  by destruct (last _).
Qed.

(** Two rows for one file. *)
Lemma read_md5_file_last_row_wins_witness :
  exists hashes,
    outcome (read_md5_file
               (manifest_env ("|old x pkg.rpm|" +:+ newline
                              +:+ "|new x pkg.rpm|" +:+ newline))
               (mkPath false ["md5.txt"])) []
    = Ok hashes
    /\ hashes !! "pkg.rpm" = Some "new".
Proof.
  destruct (read_md5_file_last_row_wins
              (manifest_env ("|old x pkg.rpm|" +:+ newline
                             +:+ "|new x pkg.rpm|" +:+ newline))
              (mkPath false ["md5.txt"])
              ("|old x pkg.rpm|" +:+ newline +:+ "|new x pkg.rpm|" +:+ newline)
              [] eq_refl eq_refl) as (hashes & Ho & Hk).
  exists hashes. split; [exact Ho|]. rewrite Hk. vm_compute. reflexivity.
Defined.

(** X5: once the manifest is read and the files of the listed artifacts
    can be read, [verify_md5s] returns [True] exactly when every artifact
    is named in the manifest with the digest computed for it; so an empty
    list of artifacts passes, and one unlisted artifact fails the whole
    verification. *)
Theorem verify_md5s_true_iff env rpms md5_file hashes h t0 :
  read_md5_file env md5_file h = (t0, Ok hashes) ->
  forallb (digestible env hashes) rpms = true ->
  (outcome (verify_md5s env rpms md5_file) h = Ok true
   <-> forall rpm, In rpm rpms -> hashes !! name rpm = Some (computed_md5 env rpm))
  /\ (outcome (verify_md5s env rpms md5_file) h = Ok true
      \/ outcome (verify_md5s env rpms md5_file) h = Ok false)
  /\ (rpms = [] -> outcome (verify_md5s env rpms md5_file) h = Ok true).
Proof.
  intros E Hd. unfold outcome.
  rewrite (verify_md5s_with_manifest _ _ _ _ _ _ E).
  destruct (verify_loop_run env hashes rpms true
              (h ++ t0 ++ [Print (MsgFoundSums (size hashes))]) Hd)
    as (t & El & _).
  rewrite El. cbn [fst snd andb].
  assert (Hiff : forallb (verified env hashes) rpms = true
                 <-> forall rpm, In rpm rpms ->
                       hashes !! name rpm = Some (computed_md5 env rpm)).
  { rewrite forallb_forall. unfold verified.
    split; intros Hall rpm Hin; specialize (Hall rpm Hin).
    - destruct (hashes !! name rpm) as [expd|]; [|done].
      apply String.eqb_eq in Hall. by subst.
    - rewrite Hall. apply String.eqb_refl. }
  split_and!.
  - rewrite <- Hiff. split; [by intros [= ->] | by intros ->].
  - destruct (forallb (verified env hashes) rpms); eauto.
  - by intros ->.
Qed.

(** The listed and matching artifact of the example world. *)
Lemma verify_md5s_true_iff_witness :
  outcome (verify_md5s example_env
             [mkPath true ["home"; "op"; "ckct-tools-1.rpm"]]
             (mkPath false ["md5.txt"])) []
  = Ok true.
Proof.
  refine (proj2 (proj1
    (verify_md5s_true_iff example_env
       [mkPath true ["home"; "op"; "ckct-tools-1.rpm"]]
       (mkPath false ["md5.txt"]) (manifest_of example_manifest) []
       [FsExists ["home"; "op"; "md5.txt"];
        FsOpen ["home"; "op"; "md5.txt"] "r"] _ _)) _).
  - vm_compute. reflexivity.
  - vm_compute. reflexivity.
  - intros rpm [<-|[]]. vm_compute. reflexivity.
Defined.

(** ** The prefix lists *)

Lemma prefix_cons_cons a b (p n : string) :
  String.prefix (String a p) (String b n)
  = if ascii_dec a b then String.prefix p n else false.
Proof. reflexivity. Qed.

Lemma prefixes_comparable (n : string) : forall p q,
  String.prefix p n = true -> String.prefix q n = true ->
  comparable p q = true.
Proof.
  unfold comparable.
  induction n as [|c n IH]; intros [|a p] [|b q] Hp Hq;
    try (simpl in *; done).
  rewrite prefix_cons_cons in Hp, Hq.
  destruct (ascii_dec a c) as [->|]; [|done].
  destruct (ascii_dec b c) as [->|]; [|done].
  rewrite !prefix_cons_cons. destruct (ascii_dec c c); [|done].
  by apply IH.
Qed.

Lemma matches_overlapping l1 l2 nm :
  matches l1 nm = true -> matches l2 nm = true -> overlapping l1 l2 = true.
Proof.
  unfold matches, overlapping, Py.startswith. rewrite !existsb_exists.
  intros (p & Hp & Hpn) (q & Hq & Hqn). exists p. split; [done|].
  apply existsb_exists. exists q. split; [done|].
  by apply (prefixes_comparable nm).
Qed.

Lemma matches_same_host nm h1 h2 :
  matches (expected h1) nm = true ->
  matches (expected h2) nm = true ->
  h1 = h2.
Proof.
  intros H1 H2. pose proof (matches_overlapping _ _ _ H1 H2) as Ho.
  destruct h1, h2; try done; vm_compute in Ho; discriminate.
Qed.

(** X6: the three prefix lists are unambiguous: no name starts with
    prefixes of two hosts (no prefix of one host is a prefix of, or
    extends, a prefix of another), so the order in which [pack_list] tests
    the hosts never decides where an artifact goes: an artifact is
    assigned to a host exactly when its name starts with one of the
    prefixes of that host. *)
Theorem pack_lists_unambiguous rpm host :
  (forall other,
     matches (expected host) (name rpm) = true ->
     matches (expected other) (name rpm) = true ->
     host = other)
  /\ (assigned_host rpm = Some host
      <-> matches (expected host) (name rpm) = true).
Proof.
  split; [intros other; apply matches_same_host|].
  unfold assigned_host. split.
  - destruct (matches RCC_PACK_LIST (name rpm)) eqn:Hr; [by intros [= <-]|].
    destruct (matches DCC_PACK_LIST (name rpm)) eqn:Hd; [by intros [= <-]|].
    destruct (matches BCC_PACK_LIST (name rpm)) eqn:Hb; [by intros [= <-]|done].
  - intros Hm.
    destruct (matches RCC_PACK_LIST (name rpm)) eqn:Hr.
    { f_equal. by apply (matches_same_host (name rpm)). }
    destruct (matches DCC_PACK_LIST (name rpm)) eqn:Hd.
    { f_equal. by apply (matches_same_host (name rpm)). }
    destruct (matches BCC_PACK_LIST (name rpm)) eqn:Hb.
    { f_equal. by apply (matches_same_host (name rpm)). }
    destruct host; unfold expected in Hm; congruence.
Qed.

(** ** The lists of [pack_list] *)

Lemma classification_permutation rpms :
  rpms ≡ₚ List.filter (assigned_to RCC) rpms
           ++ List.filter (assigned_to DCC) rpms
           ++ List.filter (assigned_to BCC) rpms
           ++ List.filter unassigned rpms.
Proof.
  induction rpms as [|rpm rpms IH]; [done|].
  cbn [List.filter].
  pose proof (assigned_to_cases rpm) as Hc.
  assert (Hu : unassigned rpm = bool_decide (assigned_host rpm = None)) by done.
  rewrite Hu. clear Hu.
  destruct (assigned_host rpm) as [[]|]; rewrite !Hc;
    repeat match goal with
           | |- context [bool_decide (?a = ?b)] =>
               let v := eval vm_compute in (bool_decide (a = b)) in
               change (bool_decide (a = b)) with v
           end;
    cbn [app].
  - by f_equiv.
  - rewrite <- Permutation_middle. by f_equiv.
  - rewrite app_assoc, <- Permutation_middle, <- app_assoc. by f_equiv.
  - rewrite !app_assoc, <- Permutation_middle, <- !app_assoc. by f_equiv.
Qed.

(** X7: the three lists of [pack_list] and the unassigned artifacts are a
    partition of the input: together they hold every artifact as often as
    the input does.  When the set is complete the input has exactly
    eighteen artifacts and the three lists hold all of them. *)
Theorem pack_list_partition rpms h :
  exists st,
    outcome (pack_list_check rpms) h = Ok st
    /\ rpms ≡ₚ rcc_pack_list st ++ dcc_pack_list st ++ bcc_pack_list st
               ++ List.filter unassigned rpms
    /\ (all_ok st = true ->
        length rpms = 18%nat
        /\ rpms ≡ₚ rcc_pack_list st ++ dcc_pack_list st ++ bcc_pack_list st).
Proof.
  destruct (pack_list_check_run rpms h) as (t & E & _).
  eexists. unfold outcome. rewrite E. cbn [snd].
  split; [reflexivity|]. cbn [rcc_pack_list dcc_pack_list bcc_pack_list all_ok].
  pose proof (classification_permutation rpms) as Hp.
  split; [exact Hp|].
  rewrite !andb_true_iff, !Nat.eqb_eq, <- filter_nil_forallb.
  intros [[[Hu Hr] Hd] Hb]. rewrite Hu, app_nil_r in Hp.
  split; [|exact Hp].
  rewrite Hp, !length_app, Hr, Hd, Hb. reflexivity.
Qed.

(** ** The script of [install_remote] *)

(** X9: when the session cannot be established [install_remote] raises
    the error of the connection and has done nothing else: no directory is
    made, nothing is uploaded, nothing is installed, nothing is printed. *)
Theorem install_remote_no_session env rpms remote_ip remote_username
    remote_password h :
  connect_error env (h ++ [Connect remote_ip remote_username remote_password 10])
  = true ->
  install_remote env rpms remote_ip remote_username remote_password h
  = ([Connect remote_ip remote_username remote_password 10],
     Raise ConnectionError).
Proof.
  intros Hc. unfold install_remote. apply bind_raise.
  unfold remote_connect, bind, emit, ask, ret, raise. cbn. by rewrite Hc.
Qed.

Lemma install_remote_no_session_witness :
  install_remote unreachable_env scenario_rpms "192.168.6.6" "admin" "secret" []
  = ([Connect "192.168.6.6" "admin" "secret" 10], Raise ConnectionError).
Proof.
  exact (install_remote_no_session unreachable_env scenario_rpms
           "192.168.6.6" "admin" "secret" [] eq_refl).
Defined.

Lemma remote_command_events env ssh command h :
  exists a, remote_command env ssh command h
            = (command_events command a, Ok (a.1.1 =? 0)).
Proof.
  destruct (remote_command_run env ssh command h) as (code & out & err & E).
  exists (code, out, err). exact E.
Qed.

Lemma remote_privileged_command_events env ssh command remote_password h :
  exists a,
    remote_privileged_command env ssh command remote_password h
    = (privileged_events ("sudo -S -p '' " +:+ command) remote_password a,
       Ok (a.1.1 =? 0)).
Proof.
  destruct (remote_privileged_command_run env ssh command remote_password h)
    as (code & out & err & E).
  exists (code, out, err). exact E.
Qed.

Lemma check_fail_events res h :
  exists r, _check_fail res h = (notice_events res, Ok r).
Proof. destruct res; eexists; reflexivity. Qed.

Lemma upload_run env scp rpms h :
  exists perr r,
    bind (scp_files env scp rpms (upload_dir env)) (fun res => _check_fail res) h
    = (upload_events env rpms perr, Ok r).
Proof.
  destruct (scp_files_run env scp rpms (upload_dir env) h) as (perr & E).
  exists perr. unfold bind. rewrite E. unfold upload_events.
  destruct perr; eexists; cbn; reflexivity.
Qed.

Lemma install_step_events env ssh remote_password rpm h :
  exists a,
    install_step env ssh remote_password tt
      (upload_dir env +:+ "/" +:+ name rpm) h
    = (install_events env remote_password (rpm, a), Ok tt).
Proof.
  unfold install_step, yum_install_remote.
  destruct (remote_privileged_command_events env ssh
              ("yum -y install " +:+ upload_dir env +:+ "/" +:+ name rpm)
              remote_password
              (h ++ [Print (MsgInstalling (upload_dir env +:+ "/" +:+ name rpm))]))
    as (a & E).
  destruct (check_fail_events (a.1.1 =? 0)
              ((h ++ [Print (MsgInstalling (upload_dir env +:+ "/" +:+ name rpm))])
               ++ privileged_events
                    ("sudo -S -p '' "
                     +:+ "yum -y install " +:+ upload_dir env +:+ "/" +:+ name rpm)
                    remote_password a)) as (r & E2).
  exists a. eapply eq_trans.
  { eapply bind_run; [reflexivity|].
    eapply bind_run; [exact E|].
    eapply bind_run; [exact E2|]. reflexivity. }
  unfold install_events. cbn [fst snd app]. by rewrite app_nil_r.
Qed.

Lemma install_loop_events env ssh remote_password rpms : forall h,
  exists answers,
    length answers = length rpms
    /\ for_each (install_step env ssh remote_password)
         (map (fun x => upload_dir env +:+ "/" +:+ name x) rpms) tt h
       = (flat_map (install_events env remote_password) (zip rpms answers),
          Ok tt).
Proof.
  induction rpms as [|rpm rpms IH]; intros h.
  { exists []. done. }
  destruct (install_step_events env ssh remote_password rpm h) as (a & E1).
  destruct (IH (h ++ install_events env remote_password (rpm, a)))
    as (answers & Hlen & E2).
  exists (a :: answers). split; [by simpl; rewrite Hlen|].
  cbn [map]. rewrite for_each_cons. apply (bind_run _ _ _ _ _ _ _ E1 E2).
Qed.

(** The events of a run, in order, for some answers of the outside. *)
Lemma install_remote_events env rpms remote_ip remote_username remote_password h :
  connect_error env (h ++ [Connect remote_ip remote_username remote_password 10])
  = false ->
  exists a0 perr answers,
    length answers = length rpms
    /\ install_remote env rpms remote_ip remote_username remote_password h
       = (run_events env rpms remote_ip remote_username remote_password
            a0 perr answers,
          Ok true).
Proof.
  intros Hc.
  set (e_conn := Connect remote_ip remote_username remote_password 10).
  assert (Econn : remote_connect env remote_ip remote_username remote_password h
                  = ([e_conn], Ok (tt, tt))).
  { unfold remote_connect, bind, emit, ask, ret, raise, e_conn. cbn.
    by rewrite Hc. }
  set (e_up := Print (MsgUploading (length rpms) (upload_dir env))).
  set (h2 := (h ++ [e_conn]) ++ [e_up]).
  destruct (remote_command_events env tt ("mkdir -p " +:+ upload_dir env) h2)
    as (a0 & E2).
  set (t2 := command_events ("mkdir -p " +:+ upload_dir env) a0) in *.
  destruct (check_fail_events (a0.1.1 =? 0) (h2 ++ t2)) as (r3 & E3).
  set (t3 := notice_events (a0.1.1 =? 0)) in *.
  destruct (scp_files_run env tt rpms (upload_dir env) ((h2 ++ t2) ++ t3))
    as (perr & E4).
  match type of E4 with _ = (?t, Ok ?b) =>
    set (t4 := t) in *; set (b4 := b) in * end.
  destruct (check_fail_events b4 (((h2 ++ t2) ++ t3) ++ t4)) as (r5 & E5).
  destruct (install_loop_events env tt remote_password rpms
              ((((h2 ++ t2) ++ t3) ++ t4) ++ notice_events b4))
    as (answers & Hlen & E6).
  exists a0, perr, answers. split; [exact Hlen|].
  assert (Hup : t4 ++ notice_events b4 = upload_events env rpms perr).
  { unfold t4, b4, upload_events. by destruct perr. }
  unfold run_events. rewrite <- Hup.
  unfold install_remote.
  eapply eq_trans.
  { eapply bind_run; [exact Econn|]. cbv beta iota.
    eapply bind_run; [reflexivity|].
    eapply bind_run; [exact E2|].
    eapply bind_run; [exact E3|].
    eapply bind_run; [exact E4|].
    eapply bind_run; [exact E5|].
    eapply bind_run; [exact E6|].
    eapply bind_run; [reflexivity|].
    reflexivity. }
  f_equal. unfold mkdir_command. fold t2 t3. cbn [app].
  by rewrite <- !app_assoc.
Qed.

Lemma stdin_writes_app t1 t2 :
  stdin_writes (t1 ++ t2) = stdin_writes t1 ++ stdin_writes t2.
Proof. apply omap_app. Qed.

Lemma uploads_app t1 t2 : uploads (t1 ++ t2) = uploads t1 ++ uploads t2.
Proof. apply omap_app. Qed.

Lemma install_events_writes env remote_password l :
  stdin_writes (flat_map (install_events env remote_password) l)
  = map (fun ra => (install_command env ra.1, remote_password +:+ newline)) l.
Proof.
  induction l as [|[rpm a] l IH]; [done|].
  cbn [flat_map map]. rewrite stdin_writes_app, IH. unfold install_events.
  cbn [fst snd]. destruct (a.1.1 =? 0); reflexivity.
Qed.

Lemma install_events_uploads env remote_password l :
  uploads (flat_map (install_events env remote_password) l) = [].
Proof.
  induction l as [|[rpm a] l IH]; [done|].
  cbn [flat_map]. rewrite uploads_app, IH. unfold install_events.
  cbn [fst snd]. destruct (a.1.1 =? 0); reflexivity.
Qed.

(** X10: in a run of [install_remote] on an established session the
    password is written to the standard input of the install commands and
    of nothing else: once per artifact, in upload order, followed by a
    newline; the command that makes the staging directory gets none. *)
Theorem install_remote_password_writes env rpms remote_ip remote_username
    remote_password h :
  connect_error env (h ++ [Connect remote_ip remote_username remote_password 10])
  = false ->
  stdin_writes (trace (install_remote env rpms remote_ip remote_username
                         remote_password) h)
  = map (fun rpm => (install_command env rpm, remote_password +:+ newline)) rpms.
Proof.
  intros Hc.
  destruct (install_remote_events env rpms remote_ip remote_username
              remote_password h Hc) as (a0 & perr & answers & Hlen & E).
  unfold trace. rewrite E. cbn [fst]. unfold run_events.
  change (Connect remote_ip remote_username remote_password 10
            :: Print (MsgUploading (length rpms) (upload_dir env))
            :: ?t)
    with ([Connect remote_ip remote_username remote_password 10;
           Print (MsgUploading (length rpms) (upload_dir env))] ++ t).
  rewrite !stdin_writes_app, install_events_writes.
  rewrite (map_fst_zip
             (fun rpm => (install_command env rpm, remote_password +:+ newline)))
    by done.
  destruct (a0.1.1 =? 0), perr; cbn; by rewrite ?app_nil_r.
Qed.

Lemma install_remote_password_writes_witness :
  stdin_writes (trace (install_remote failing_env scenario_rpms
                         "192.168.6.6" "admin" "secret") [])
  = map (fun rpm => (install_command failing_env rpm, "secret" +:+ newline))
        scenario_rpms.
Proof.
  exact (install_remote_password_writes failing_env scenario_rpms
           "192.168.6.6" "admin" "secret" [] eq_refl).
Defined.

(** X11: a run of [install_remote] on an established session attempts the
    upload exactly once, as one batch of all the artifacts of the host into
    the staging directory with the modification times preserved; a failed
    upload is not tried again, and the batch is sent even when it is
    empty.  Whatever failed, the run ends by printing that the install is
    complete. *)
Theorem install_remote_one_upload env rpms remote_ip remote_username
    remote_password h :
  connect_error env (h ++ [Connect remote_ip remote_username remote_password 10])
  = false ->
  uploads (trace (install_remote env rpms remote_ip remote_username
                    remote_password) h)
  = [(rpms, upload_dir env, true)]
  /\ last (trace (install_remote env rpms remote_ip remote_username
                    remote_password) h)
     = Some (Print MsgInstallComplete).
Proof.
  intros Hc.
  destruct (install_remote_events env rpms remote_ip remote_username
              remote_password h Hc) as (a0 & perr & answers & Hlen & E).
  unfold trace. rewrite E. cbn [fst]. unfold run_events. split.
  - change (Connect remote_ip remote_username remote_password 10
              :: Print (MsgUploading (length rpms) (upload_dir env))
              :: ?t)
      with ([Connect remote_ip remote_username remote_password 10;
             Print (MsgUploading (length rpms) (upload_dir env))] ++ t).
    rewrite !uploads_app, install_events_uploads.
    destruct (a0.1.1 =? 0), perr; reflexivity.
  - rewrite !app_comm_cons, !app_assoc. apply last_snoc.
Qed.

Lemma install_remote_one_upload_witness :
  uploads (trace (install_remote failing_env scenario_rpms
                    "192.168.6.6" "admin" "secret") [])
  = [(scenario_rpms, "installtool-20240101", true)]
  /\ last (trace (install_remote failing_env scenario_rpms
                    "192.168.6.6" "admin" "secret") [])
     = Some (Print MsgInstallComplete).
Proof.
  exact (install_remote_one_upload failing_env scenario_rpms
           "192.168.6.6" "admin" "secret" [] eq_refl).
Defined.

(** ** The console *)

Lemma lower_char_y a :
  Console.lower_char a = "y"%char <-> a = "y"%char \/ a = "Y"%char.
Proof.
  destruct a as [[] [] [] [] [] [] [] []]; vm_compute;
    (split; [intros H; try discriminate H; auto
            | intros [H|H]; try discriminate H; reflexivity]).
Qed.

Lemma lower_char_n a :
  Console.lower_char a = "n"%char <-> a = "n"%char \/ a = "N"%char.
Proof.
  destruct a as [[] [] [] [] [] [] [] []]; vm_compute;
    (split; [intros H; try discriminate H; auto
            | intros [H|H]; try discriminate H; reflexivity]).
Qed.

Lemma lower_single s c :
  Console.lower s = String c EmptyString
  <-> exists a, s = String a EmptyString /\ Console.lower_char a = c.
Proof.
  destruct s as [|a [|b s]]; simpl.
  - split; [discriminate | intros (? & ? & _); discriminate].
  - split; [intros [= <-]; eauto | intros (? & [= <-] & <-); done].
  - split; [discriminate | intros (? & ? & _); discriminate].
Qed.

Lemma answer_of_true s :
  Console.answer_of s = Some true <-> s = "y" \/ s = "Y".
Proof.
  unfold Console.answer_of.
  destruct (String.eqb_spec (Console.lower s) "y") as [Hy|Hy].
  - split; [intros _|done]. apply lower_single in Hy as (a & -> & Ha).
    apply lower_char_y in Ha as [->| ->]; auto.
  - destruct (String.eqb_spec (Console.lower s) "n");
      (split; [discriminate|]); intros [->| ->]; by destruct Hy.
Qed.

Lemma answer_of_false s :
  Console.answer_of s = Some false <-> s = "n" \/ s = "N".
Proof.
  unfold Console.answer_of.
  destruct (String.eqb_spec (Console.lower s) "y") as [Hy|Hy].
  - split; [discriminate|]. intros [->| ->]; discriminate Hy.
  - destruct (String.eqb_spec (Console.lower s) "n") as [Hn|Hn].
    + split; [intros _|done]. apply lower_single in Hn as (a & -> & Ha).
      apply lower_char_n in Ha as [->| ->]; auto.
    + split; [discriminate|]. intros [->| ->]; by destruct Hn.
Qed.

Lemma yesno_rejects question s inputs :
  Console.answer_of s = None ->
  Console.yesno question (s :: inputs)
  = (Console.Input (question +:+ " [y/N] > ") (Some s)
       :: Console.Say Console.InvalidChoice
       :: (Console.yesno question inputs).1.1,
     (Console.yesno question inputs).1.2,
     (Console.yesno question inputs).2).
Proof.
  unfold Console.answer_of. cbn [Console.yesno].
  destruct (String.eqb (Console.lower s) "y"); [done|].
  destruct (String.eqb (Console.lower s) "n"); [done|].
  intros _. by destruct (Console.yesno question inputs) as [[t r] rest].
Qed.

Lemma yesno_accepts question s b inputs :
  Console.answer_of s = Some b ->
  Console.yesno question (s :: inputs)
  = ([Console.Input (question +:+ " [y/N] > ") (Some s)],
     Console.Returned b, inputs).
Proof.
  unfold Console.answer_of. cbn [Console.yesno].
  destruct (String.eqb (Console.lower s) "y"); [by intros [= <-]|].
  destruct (String.eqb (Console.lower s) "n"); [by intros [= <-]|done].
Qed.

(** X12: [yesno] answers with the first line typed that is [y], [Y], [n]
    or [N], exactly; every line before it (such as [yes], or [y] with a
    blank) is refused with one message and asked again, nothing after it
    is read; when no such line comes the end of the input raises
    [EOFError]. *)
Theorem yesno_first_answer question bad :
  Forall (fun s => Console.answer_of s = None) bad ->
  Console.yesno question bad
  = (flat_map (fun s => [Console.Input (question +:+ " [y/N] > ") (Some s);
                         Console.Say Console.InvalidChoice]) bad
     ++ [Console.Input (question +:+ " [y/N] > ") None],
     Console.Raised Console.EOFError, [])
  /\ (forall sel b rest,
      Console.answer_of sel = Some b ->
      Console.yesno question (bad ++ sel :: rest)
      = (flat_map (fun s => [Console.Input (question +:+ " [y/N] > ") (Some s);
                             Console.Say Console.InvalidChoice]) bad
         ++ [Console.Input (question +:+ " [y/N] > ") (Some sel)],
         Console.Returned b, rest))
  /\ (forall s, Console.answer_of s = Some true <-> s = "y" \/ s = "Y")
  /\ (forall s, Console.answer_of s = Some false <-> s = "n" \/ s = "N").
Proof.
  intros Hbad. split_and!; [| |apply answer_of_true|apply answer_of_false].
  - induction Hbad as [|s bad Hs _ IH]; [done|].
    rewrite (yesno_rejects _ _ _ Hs), IH. reflexivity.
  - intros sel b rest Hsel.
    induction Hbad as [|s bad Hs _ IH].
    + by apply yesno_accepts.
    + cbn [app]. rewrite (yesno_rejects _ _ _ Hs), IH. reflexivity.
Qed.

Lemma yesno_first_answer_witness :
  Console.yesno "Ready to proceed?" ["yes"; " y"; "Y"; "n"]
  = ([Console.Input "Ready to proceed? [y/N] > " (Some "yes");
      Console.Say Console.InvalidChoice;
      Console.Input "Ready to proceed? [y/N] > " (Some " y");
      Console.Say Console.InvalidChoice;
      Console.Input "Ready to proceed? [y/N] > " (Some "Y")],
     Console.Returned true, ["n"]).
Proof.
  refine (proj1 (proj2
    (yesno_first_answer "Ready to proceed?" ["yes"; " y"] _)) "Y" true ["n"] _).
  - repeat constructor.
  - reflexivity.
Defined.

Lemma choice_in_range n inp i :
  Console.choice n inp = Some i ->
  0 <= i < n /\ Console.int inp = Some (i + 1).
Proof.
  unfold Console.choice, Console.in_range.
  destruct (Console.int inp) as [v|]; [|done].
  destruct (Z.leb_spec 0 (v - 1)), (Z.ltb_spec (v - 1) n); try done.
  intros [= <-]. split; [lia|]. f_equal. lia.
Qed.





Lemma split_not_nil c s : Py.split c s <> [].
Proof.
  destruct s as [|a s]; [done|]. cbn [Py.split].
  destruct (Py.char_eqb a c); [done|]. by destruct (Py.split c s).
Qed.

Lemma select_each_accepts n inps : forall indexes t sel,
  Console.select_each n inps indexes = (t, Some sel) ->
  t = []
  /\ exists new,
       sel = indexes ++ new
       /\ length new = length inps
       /\ Forall (fun i => 0 <= i <= n) new
       /\ Forall2 (fun inp i => Console.int (Py.strip inp) = Some (i + 1))
            inps new.
Proof.
  induction inps as [|inp inps IH]; intros indexes t sel.
  { intros [= <- <-]. split; [done|]. exists []. by rewrite app_nil_r. }
  cbn [Console.select_each].
  destruct (Console.choice (n + 1) (Py.strip inp)) as [i|] eqn:Hi; [|done].
  intros H. apply IH in H as (-> & new & -> & Hlen & Hall & Hint).
  split; [done|]. exists (i :: new).
  apply choice_in_range in Hi as [Hr Hi].
  split_and!.
  - by rewrite <- app_assoc.
  - simpl. by rewrite Hlen.
  - constructor; [lia|done].
  - by constructor.
Qed.

Lemma select_line_accepts n line t sel :
  Console.select_line n line = (t, Some sel) ->
  t = []
  /\ sel <> []
  /\ length sel = length (Py.split "," line)
  /\ Forall (fun i => 0 <= i <= n) sel
  /\ Forall2 (fun inp i => Console.int (Py.strip inp) = Some (i + 1))
       (Py.split "," line) sel
  /\ (n ∈ sel -> sel = [n]).
Proof.
  unfold Console.select_line.
  destruct (Console.select_each n (Py.split "," line) []) as [t0 [indexes|]]
    eqn:E; [|done].
  apply select_each_accepts in E as (-> & new & -> & Hlen & Hall & Hint).
  cbn [app].
  destruct (bool_decide (n ∈ new) && (1 <? length new)%nat) eqn:Hc; [done|].
  intros [= <- <-].
  split_and!; try done.
  - intros ->. pose proof (split_not_nil "," line). by destruct (Py.split "," line).
  - intros Hin. apply andb_false_iff in Hc as [Hc|Hc].
    + by apply bool_decide_eq_false in Hc.
    + apply Nat.ltb_ge in Hc. destruct new as [|x [|y new]]; simpl in Hc; try lia.
      * by apply elem_of_nil in Hin.
      * apply list_elem_of_singleton in Hin. by subst.
Qed.





(** ** The selection dialogue *)

Lemma yesno_outcome question inputs :
  match Console.yesno question inputs with
  | (_, Console.Returned _, rest) => (length rest < length inputs)%nat
  | (_, Console.Raised e, _) => e = Console.EOFError
  end.
Proof.
  induction inputs as [|s inputs IH]; [done|].
  cbn [Console.yesno].
  destruct (String.eqb (Console.lower s) "y"); [simpl; lia|].
  destruct (String.eqb (Console.lower s) "n"); [simpl; lia|].
  destruct (Console.yesno question inputs) as [[t [b|e]] rest]; simpl in *; lia || done.
Qed.

Lemma multi_menu_loop_outcome n inputs :
  match Console.multi_menu_loop n inputs with
  | (_, Console.Returned sel, rest) =>
      (length rest < length inputs)%nat
      /\ exists line, Console.select_line n line = ([], Some sel)
  | (_, Console.Raised e, _) => e = Console.EOFError
  end.
Proof.
  induction inputs as [|s inputs IH]; [done|].
  cbn [Console.multi_menu_loop].
  destruct (Console.select_line n s) as [t [sel|]] eqn:Es.
  - destruct (select_line_accepts _ _ _ _ Es) as (-> & _).
    split; [simpl; lia|]. eauto.
  - destruct (Console.multi_menu_loop n inputs) as [[t' [sel|e]] rest];
      [|done].
    destruct IH as [Hlen Hline]. split; [simpl; lia|done].
Qed.

Lemma multi_menu_outcome options title inputs :
  options <> [] ->
  match Console.multi_menu options title inputs with
  | (_, Console.Returned sel, rest) =>
      (length rest < length inputs)%nat
      /\ sel <> []
      /\ Forall (fun i => 0 <= i <= Z.of_nat (length options)) sel
      /\ (Z.of_nat (length options) ∈ sel -> sel = [Z.of_nat (length options)])
  | (_, Console.Raised e, _) => e = Console.EOFError
  end.
Proof.
  intros Hne. unfold Console.multi_menu.
  destruct options as [|o options]; [done|]. cbn [length Nat.eqb].
  pose proof (multi_menu_loop_outcome (Z.of_nat (S (length options))) inputs) as H.
  destruct (Console.multi_menu_loop _ inputs) as [[t [sel|e]] rest]; [|done].
  destruct H as (Hlen & line & Hline).
  destruct (select_line_accepts _ _ _ _ Hline) as (_ & Hnn & _ & Hr & _ & Hall).
  done.
Qed.

Lemma search_loop_enough find_rpms target arch turns : forall rpms inputs,
  (length inputs < turns)%nat ->
  exists t r rest,
    Console.search_loop find_rpms turns target arch rpms inputs = Some (t, r, rest)
    /\ match r with
       | Console.Returned found =>
           (length rest <= length inputs)%nat
           /\ found <> []
           /\ (found = rpms \/ exists recursive, found = find_rpms recursive arch)
       | Console.Raised e => e = Console.EOFError
       end.
Proof.
  induction turns as [|k IH]; intros rpms inputs Hlen; [lia|].
  destruct rpms as [|rpm rpms].
  2: { do 3 eexists. cbn [Console.search_loop]. split; [reflexivity|].
       split; [lia|]. split; [done|by left]. }
  cbn [Console.search_loop].
  pose proof (yesno_outcome Console.look_below inputs) as Hy.
  destruct (Console.yesno Console.look_below inputs) as [[t1 [recursive|e]] rest].
  - destruct (IH (find_rpms recursive arch) rest ltac:(lia))
      as (t2 & r2 & rest2 & -> & Hr).
    do 3 eexists. split; [reflexivity|].
    destruct r2 as [found|e]; [|done].
    destruct Hr as (Hle & Hnn & [->|Hex]); split_and!; eauto; lia.
  - do 3 eexists. split; [reflexivity|]. done.
Qed.

Lemma range0_in_range n :
  Forall (fun i => 0 <= i < Z.of_nat n) (Console.range0 n).
Proof.
  unfold Console.range0. apply Forall_forall. intros i Hin.
  apply list_elem_of_fmap in Hin as (k & -> & Hk).
  apply list_elem_of_In, in_seq in Hk. lia.
Qed.

Lemma select_loop_enough target rpms turns : forall inputs,
  rpms <> [] ->
  (length inputs < turns)%nat ->
  exists t r rest,
    Console.select_loop turns target rpms inputs = Some (t, r, rest)
    /\ match r with
       | Console.Returned to_install =>
           to_install <> []
           /\ Forall (fun i => 0 <= i < Z.of_nat (length rpms)) to_install
       | Console.Raised e => e = Console.EOFError
       end.
Proof.
  induction turns as [|k IH]; intros inputs Hne Hlen; [lia|].
  cbn [Console.select_loop].
  assert (Hopts : map Console.Path_str rpms <> []) by (by destruct rpms).
  pose proof (multi_menu_outcome (map Console.Path_str rpms) "Select Packages"
                inputs Hopts) as Hm.
  rewrite length_map in Hm.
  destruct (Console.multi_menu (map Console.Path_str rpms) "Select Packages" inputs)
    as [[t1 [sel|e]] rest].
  2: { do 3 eexists. split; [reflexivity|done]. }
  destruct Hm as (Hl1 & Hnn & Hr & Hall).
  destruct (length sel <? 1)%nat eqn:Hshort.
  { apply Nat.ltb_lt in Hshort. destruct sel; [done|simpl in Hshort; lia]. }
  set (to_install := if bool_decide (Z.of_nat (length rpms) ∈ sel)
                     then Console.range0 (length rpms) else sel).
  assert (Hto : to_install <> []
                /\ Forall (fun i => 0 <= i < Z.of_nat (length rpms)) to_install).
  { unfold to_install. case_bool_decide as Hin.
    - split; [by destruct rpms|apply range0_in_range].
    - split; [done|]. apply Forall_forall. intros i Hi.
      pose proof (proj1 (Forall_forall _ _) Hr i Hi) as Hb. cbv beta in Hb.
      assert (i <> Z.of_nat (length rpms)) by (intros ->; done). lia. }
  pose proof (yesno_outcome "Ready to proceed?" rest) as Hy.
  destruct (Console.yesno "Ready to proceed?" rest) as [[t2 [[]|e]] rest2].
  - do 3 eexists. split; [reflexivity|done].
  - destruct (IH rest2 Hne ltac:(lia)) as (t3 & r3 & rest3 & -> & H3).
    do 3 eexists. split; [reflexivity|done].
  - do 3 eexists. split; [reflexivity|done].
Qed.

Lemma pick_in_range {A} (rpms : list A) to_install :
  Forall (fun i => 0 <= i < Z.of_nat (length rpms)) to_install ->
  exists chosen,
    Console.pick rpms to_install = Some chosen
    /\ length chosen = length to_install
    /\ Forall (fun x => x ∈ rpms) chosen.
Proof.
  induction 1 as [|i to_install Hi _ (chosen & E & Hlen & Hall)].
  { exists []. done. }
  cbn [Console.pick]. unfold Console.getitem.
  destruct (Z.ltb_spec i 0); [lia|]. destruct (Z.ltb_spec i 0); [lia|].
  destruct (lookup_lt_is_Some_2 rpms (Z.to_nat i) ltac:(lia)) as [x Hx].
  rewrite Hx, E. exists (x :: chosen). split; [done|].
  split; [by simpl; rewrite Hlen|]. constructor; [|done].
  by apply list_elem_of_lookup_2 in Hx.
Qed.

(** X15: [verbose_rpm_ask] never fails on its own selection: whatever the
    operator types and whatever the searches find, it either returns or
    is stopped by the end of the input ([EOFError]); it never raises
    [IndexError] or [AssertionError].  The list it returns is never empty
    and holds only packages found by the search it last made. *)
Theorem verbose_rpm_ask_safe find_rpms target arch inputs :
  exists t r rest,
    Console.verbose_rpm_ask find_rpms target arch inputs = Some (t, r, rest)
    /\ match r with
       | Console.Returned chosen =>
           chosen <> []
           /\ exists recursive,
                Forall (fun x => x ∈ find_rpms recursive arch) chosen
       | Console.Raised e => e = Console.EOFError
       end.
Proof.
  unfold Console.verbose_rpm_ask.
  destruct (search_loop_enough find_rpms target arch (S (length inputs))
              (find_rpms false arch) inputs ltac:(lia))
    as (t1 & r1 & rest1 & -> & H1).
  destruct r1 as [rpms|e]; [|by do 3 eexists].
  destruct H1 as (_ & Hne & Hfound).
  destruct (select_loop_enough target rpms (S (length rest1)) rest1 Hne ltac:(lia))
    as (t2 & r2 & rest2 & -> & H2).
  destruct r2 as [to_install|e]; [|by do 3 eexists].
  destruct H2 as (Hnn & Hr).
  destruct (pick_in_range rpms to_install Hr) as (chosen & -> & Hlen & Hall).
  do 3 eexists. split; [reflexivity|]. split.
  - intros ->. by destruct to_install.
  - destruct Hfound as [->|[recursive ->]]; eauto.
Qed.

Lemma yesno_reads question inputs :
  match Console.yesno question inputs with
  | (_, Console.Returned b, rest) =>
      exists bad sel,
        inputs = bad ++ sel :: rest
        /\ Forall (fun s => Console.answer_of s = None) bad
        /\ Console.answer_of sel = Some b
  | (_, Console.Raised e, _) =>
      Forall (fun s => Console.answer_of s = None) inputs
  end.
Proof.
  induction inputs as [|s inputs IH]; [by constructor|].
  destruct (Console.answer_of s) as [b|] eqn:Hs.
  - rewrite (yesno_accepts _ _ _ _ Hs). exists [], s. done.
  - rewrite (yesno_rejects _ _ _ Hs).
    destruct (Console.yesno question inputs) as [[t [b|e]] rest]; cbn [fst snd].
    + destruct IH as (bad & sel & -> & Hbad & Hsel).
      exists (s :: bad), sel. split_and!; [done| |done]. by constructor.
    + by constructor.
Qed.

Lemma no_running_sw_loop_enough turns : forall inputs,
  (length inputs < turns)%nat ->
  exists t r rest,
    Console.no_running_sw_loop turns inputs = Some (t, r, rest)
    /\ match r with
       | Console.Returned _ =>
           exists before sel,
             inputs = before ++ sel :: rest
             /\ Forall (fun s => Console.answer_of s <> Some true) before
             /\ Console.answer_of sel = Some true
       | Console.Raised e =>
           e = Console.EOFError
           /\ Forall (fun s => Console.answer_of s <> Some true) inputs
       end.
Proof.
  induction turns as [|k IH]; intros inputs Hlen; [lia|].
  cbn [Console.no_running_sw_loop].
  pose proof (yesno_outcome Console.shut_down inputs) as Ho.
  pose proof (yesno_reads Console.shut_down inputs) as Hr.
  destruct (Console.yesno Console.shut_down inputs) as [[t1 [[]|e]] rest].
  - destruct Hr as (bad & sel & -> & Hbad & Hsel).
    do 3 eexists. split; [reflexivity|]. exists bad, sel.
    split_and!; [done| |done].
    eapply Forall_impl; [exact Hbad|]. intros s ->. done.
  - destruct Hr as (bad & sel & -> & Hbad & Hsel).
    destruct (IH rest ltac:(lia)) as (t2 & r2 & rest2 & -> & H2).
    do 3 eexists. split; [reflexivity|].
    assert (Hpre : Forall (fun s => Console.answer_of s <> Some true)
                     (bad ++ [sel])).
    { apply Forall_app. split.
      - eapply Forall_impl; [exact Hbad|]. intros s ->. done.
      - constructor; [|done]. by rewrite Hsel. }
    destruct r2 as [[]|e2].
    + destruct H2 as (before & sel' & -> & Hbefore & Hsel').
      exists ((bad ++ [sel]) ++ before), sel'.
      split_and!; [by rewrite <- !app_assoc | by apply Forall_app | done].
    + destruct H2 as [-> Hall]. split; [done|].
      replace (bad ++ sel :: rest) with ((bad ++ [sel]) ++ rest)
        by (by rewrite <- app_assoc).
      by apply Forall_app.
  - do 3 eexists. split; [reflexivity|]. split; [done|].
    eapply Forall_impl; [exact Hr|]. intros s ->. done.
Qed.

(** X16: [no_running_sw] returns only when the operator has answered [y]
    or [Y] that the software is shut down: it returns at the first such
    line, having asked again after every other line, and reads nothing
    after it; when no such line is typed it never returns (the end of the
    input raises [EOFError]). *)
Theorem no_running_sw_waits_for_yes inputs :
  exists t r rest,
    Console.no_running_sw inputs = Some (t, r, rest)
    /\ match r with
       | Console.Returned _ =>
           exists before sel,
             inputs = before ++ sel :: rest
             /\ Forall (fun s => s <> "y" /\ s <> "Y") before
             /\ (sel = "y" \/ sel = "Y")
       | Console.Raised e =>
           e = Console.EOFError
           /\ Forall (fun s => s <> "y" /\ s <> "Y") inputs
       end.
Proof.
  destruct (no_running_sw_loop_enough (S (length inputs)) inputs ltac:(lia))
    as (t & r & rest & E & H).
  exists t, r, rest. split; [exact E|].
  assert (Hno : forall l,
            Forall (fun s => Console.answer_of s <> Some true) l ->
            Forall (fun s => s <> "y" /\ s <> "Y") l).
  { intros l Hl. eapply Forall_impl; [exact Hl|]. intros s Hs.
    split; intros ->; by apply Hs. }
  destruct r as [[]|e].
  - destruct H as (before & sel & -> & Hbefore & Hsel).
    exists before, sel. split_and!; [done|by apply Hno|].
    by apply answer_of_true.
  - destruct H as [-> Hall]. split; [done|by apply Hno].
Qed.
